(** * ElevenLabs plugin for COVAS:NEXT: a shallow embedding and its properties

    The development follows [cn-plugin-elevenlabs.py]: the two adapter classes
    [ElevenLabsSTTModel] and [ElevenLabsTTSModel], and the plugin's
    [create_model] dispatch.  Python values are an inductive type, the
    settings dictionary is a [gmap], exceptions are results, and everything
    that touches the host or the vendor SDK threads an explicit [world]. *)

From Stdlib Require Import ZArith String Ascii List Bool Floats Lia.
From stdpp Require Import gmap strings.

Local Open Scope string_scope.

(** ** Python values *)

(** Exception classes that the plugin raises, catches or lets through.
    [except ImportError] and [except Exception] select by class, so the
    class hierarchy is part of the model. *)
Inductive exn_class : Type :=
  | ValueError
  | TypeError
  | OverflowError
  | ImportError
  | ModuleNotFoundError
  | OtherException (name : string)
  | OtherBaseException (name : string).

(** [isinstance(e, ImportError)]: [ModuleNotFoundError] derives from it. *)
Definition is_ImportError (c : exn_class) : bool :=
  match c with
  | ImportError | ModuleNotFoundError => true
  | _ => false
  end.

(** [isinstance(e, Exception)]: everything but the classes that derive from
    [BaseException] directly ([KeyboardInterrupt], [SystemExit], ...). *)
Definition is_Exception (c : exn_class) : bool :=
  match c with
  | OtherBaseException _ => false
  | _ => true
  end.

(** Two classes under [Exception] that the interpreter itself gives a role:
    [StopIteration], by which an iterator says it has ended, and
    [RuntimeError].  A subclass of [StopIteration] is written as
    [StopIteration]. *)
Definition StopIteration : exn_class := OtherException "StopIteration".

Definition RuntimeError : exn_class := OtherException "RuntimeError".

(** [isinstance(e, StopIteration)] *)
Definition is_StopIteration (c : exn_class) : bool :=
  match c with
  | OtherException name => String.eqb name "StopIteration"
  | _ => false
  end.

(** An exception object: its class and [str(e)]. *)
Record exn : Type := Exn { exn_class_of : exn_class; exn_str : string }.

Inductive res (A : Type) : Type :=
  | Ok (a : A)
  | Raise (e : exn).
Arguments Ok {A} a.
Arguments Raise {A} e.

Definition bytes : Type := list Byte.byte.

(** The values that flow through the plugin: the scalars of a settings
    mapping, the chunks of a vendor stream, and the in-memory file handed to
    the transcription endpoint.  A [str] is held as its UTF-8 text. *)
Inductive pyval : Type :=
  | PyNone
  | PyBool (b : bool)
  | PyInt (z : Z)
  | PyFloat (f : float)
  | PyStr (s : string)
  | PyBytes (b : bytes)
  | PyBytesIO (name : string) (data : bytes).

(** [bool(v)], as used by [if not api_key], [x or None], [if self.language_code]
    and [if ... and chunk]. *)
Definition truthy (v : pyval) : bool :=
  match v with
  | PyNone => false
  | PyBool b => b
  | PyInt z => negb (z =? 0)%Z
  | PyFloat f => negb (PrimFloat.eqb f 0%float)
  | PyStr s => negb (String.eqb s "")
  | PyBytes b => match b with [] => false | _ :: _ => true end
  | PyBytesIO _ _ => true
  end.

(** [isinstance(v, bytes)] *)
Definition is_bytes (v : pyval) : bool :=
  match v with
  | PyBytes _ => true
  | _ => false
  end.

(** [a or b] *)
Definition py_or (a b : pyval) : pyval := if truthy a then a else b.

(** [d.get(key, dflt)] *)
Definition dict_get (d : gmap string pyval) (key : string) (dflt : pyval) : pyval :=
  match d !! key with
  | Some v => v
  | None => dflt
  end.

(** [type(v).__name__], as it appears in the interpreter's [TypeError] text. *)
Definition type_name (v : pyval) : string :=
  match v with
  | PyNone => "NoneType"
  | PyBool _ => "bool"
  | PyInt _ => "int"
  | PyFloat _ => "float"
  | PyStr _ => "str"
  | PyBytes _ => "bytes"
  | PyBytesIO _ _ => "_io.BytesIO"
  end.

(** *** [str.strip()]

    Python strips the code points for which [str.isspace()] holds.  On the
    UTF-8 text these are the one-, two- and three-byte sequences below:
    U+0009..U+000D, U+001C..U+0020; U+0085, U+00A0; U+1680, U+2000..U+200A,
    U+2028, U+2029, U+202F, U+205F, U+3000. *)
Definition code (a : ascii) : N := N_of_ascii a.

Definition ws1 (a : ascii) : bool :=
  ((9 <=? code a) && (code a <=? 13) || (28 <=? code a) && (code a <=? 32))%N.

Definition ws2 (a b : ascii) : bool :=
  ((code a =? 194) && ((code b =? 133) || (code b =? 160)))%N.

Definition ws3 (a b c : ascii) : bool :=
  ((code a =? 225) && (code b =? 154) && (code c =? 128)
   || (code a =? 226) && (code b =? 128)
        && ((128 <=? code c) && (code c <=? 138)
            || (code c =? 168) || (code c =? 169) || (code c =? 175))
   || (code a =? 226) && (code b =? 129) && (code c =? 159)
   || (code a =? 227) && (code b =? 128) && (code c =? 128))%N.

(** Drop the whitespace code points at the front of a text. *)
Fixpoint lstrip_chars (l : list ascii) : list ascii :=
  match l with
  | a :: l1 =>
      if ws1 a then lstrip_chars l1
      else match l1 with
           | b :: l2 =>
               if ws2 a b then lstrip_chars l2
               else match l2 with
                    | c :: l3 => if ws3 a b c then lstrip_chars l3 else l
                    | [] => l
                    end
           | [] => l
           end
  | [] => []
  end.

(** The same from the back, on the reversed text: the last byte comes first. *)
Fixpoint rstrip_rev (l : list ascii) : list ascii :=
  match l with
  | c :: l1 =>
      if ws1 c then rstrip_rev l1
      else match l1 with
           | b :: l2 =>
               if ws2 b c then rstrip_rev l2
               else match l2 with
                    | a :: l3 => if ws3 a b c then rstrip_rev l3 else l
                    | [] => l
                    end
           | [] => l
           end
  | [] => []
  end.

Definition rstrip_chars (l : list ascii) : list ascii := rev (rstrip_rev (rev l)).

Definition strip_chars (l : list ascii) : list ascii := rstrip_chars (lstrip_chars l).

(** [s.strip()] *)
Definition strip (s : string) : string :=
  string_of_list_ascii (strip_chars (list_ascii_of_string s)).

(** *** [float(v)] *)

(** [float(n)] for an [int]: the nearest double, ties to even;
    [OverflowError] when that is not finite. *)
Definition int_to_float (z : Z) : res float :=
  match binary_normalize 53 1024 z 0 false with
  | S754_infinity _ => Raise (Exn OverflowError "int too large to convert to float")
  | sf => Ok (SF2Prim sf)
  end.

(** The interpreter's parser of numeric text ([float] on a [str] or [bytes])
    is the runtime's, not the plugin's: it is an interface here.  It either
    gives a double or raises [ValueError]. *)
Class PyRuntime : Type := {
  float_from_string : pyval -> res float;
  float_from_string_error :
    forall v e, float_from_string v = Raise e -> exn_class_of e = ValueError
}.

Definition py_float `{PyRuntime} (v : pyval) : res float :=
  match v with
  | PyFloat f => Ok f
  | PyBool b => Ok (if b then 1%float else 0%float)
  | PyInt z => int_to_float z
  | PyStr _ | PyBytes _ => float_from_string v
  | PyNone | PyBytesIO _ _ =>
      Raise (Exn TypeError
               ("float() argument must be a string or a real number, not '"
                ++ type_name v ++ "'"))
  end.

(** A [dict] literal with string keys, as a value (the [voice_settings]
    argument).  Kept apart from [pyval] so that [pyval] stays a plain
    enumeration of scalars and buffers. *)
Inductive pyarg : Type :=
  | Val (v : pyval)
  | Dict (d : gmap string pyval).

(** ** The vendor SDK and the host *)

(** A constructed [ElevenLabs] client object. *)
Definition handle : Type := nat.

(** What [client.speech_to_text.convert] returns: an object with [.text]. *)
Record stt_response : Type := { text : option string }.

(** What [client.text_to_speech.stream] returns: the items the iterator
    delivers, ending when the vendor closes the stream or with the exception
    the iterator raises.  An iterator that raises [StopIteration] has ended:
    the [for] statement takes it so. *)
Inductive vstream : Type :=
  | SEnd
  | SItem (chunk : pyval) (rest : vstream)
  | SRaise (e : exn).

(** [speech_recognition.AudioData], by its one method used here:
    [get_wav_data(convert_rate, convert_width)]. *)
Record AudioData : Type := { get_wav_data : Z -> Z -> res bytes }.

(** The vendor library as the plugin sees it.  Each operation may raise and
    may change the vendor's own state (so a call can fail once and succeed
    later). *)
Class VendorSDK : Type := {
  vstate : Type;
  (** [from elevenlabs.client import ElevenLabs] *)
  import_ElevenLabs : vstate -> res unit * vstate;
  (** [ElevenLabs(api_key=...)] *)
  ElevenLabs : pyval -> vstate -> res handle * vstate;
  (** [client.speech_to_text.convert], by keyword *)
  speech_to_text_convert :
    handle -> gmap string pyval -> vstate -> res stt_response * vstate;
  (** [client.text_to_speech.stream(...)], by keyword *)
  text_to_speech_stream :
    handle -> gmap string pyarg -> vstate -> res vstream * vstate
}.

(** What the process did with the vendor, in order, newest last. *)
Inductive event : Type :=
  | EvElevenLabs (api_key : pyval) (outcome : res handle)
  | EvConvert (client : handle) (kwargs : gmap string pyval)
  | EvStream (client : handle) (kwargs : gmap string pyarg).

(** The process state outside the adapters: the vendor, the host's log
    ([lib.Logger.log(level, message)]) and the record of vendor calls. *)
Record world `{VendorSDK} : Type := World {
  vendor : vstate;
  logged : list (string * string);
  trace : list event
}.
Arguments World {_} _ _ _.

(** ** Computations that may raise and that change a state *)

Definition M (S A : Type) : Type := S -> res A * S.

Definition ret {S A} (a : A) : M S A := fun s => (Ok a, s).

Definition raise {S A} (e : exn) : M S A := fun s => (Raise e, s).

Definition bind {S A B} (m : M S A) (k : A -> M S B) : M S B :=
  fun s =>
    match m s with
    | (Ok a, s1) => k a s1
    | (Raise e, s1) => (Raise e, s1)
    end.

Notation "x <- m ;; k" := (bind m (fun x => k))
  (at level 100, m at next level, right associativity).
Notation "m ;; k" := (bind m (fun _ => k))
  (at level 100, right associativity).

(** A pure step that may raise. *)
Definition lift_res {S A} (r : res A) : M S A := fun s => (r, s).

(** [try: m  except C1: h1  except C2: h2 ...]: the first clause whose class
    test accepts the exception handles it; with none, it propagates. *)
Fixpoint handle_with {S A} (hs : list ((exn_class -> bool) * (exn -> M S A)))
    (e : exn) : M S A :=
  match hs with
  | [] => raise e
  | (accepts, h) :: hs' =>
      if accepts (exn_class_of e) then h e else handle_with hs' e
  end.

Definition try_except {S A} (m : M S A)
    (hs : list ((exn_class -> bool) * (exn -> M S A))) : M S A :=
  fun s =>
    match m s with
    | (Ok a, s1) => (Ok a, s1)
    | (Raise e, s1) => handle_with hs e s1
    end.

Section Host.
Context `{VendorSDK}.

(** [log(level, message)] *)
Definition log (level message : string) : M world unit :=
  fun w =>
    (Ok tt, World (vendor w) (logged w ++ [(level, message)]) (trace w)).

Definition sdk_import : M world unit :=
  fun w =>
    let '(r, v) := import_ElevenLabs (vendor w) in
    (r, World v (logged w) (trace w)).

Definition sdk_ElevenLabs (api_key : pyval) : M world handle :=
  fun w =>
    let '(r, v) := ElevenLabs api_key (vendor w) in
    (r, World v (logged w) (trace w ++ [EvElevenLabs api_key r])).

Definition sdk_convert (client : handle) (kwargs : gmap string pyval)
    : M world stt_response :=
  fun w =>
    let '(r, v) := speech_to_text_convert client kwargs (vendor w) in
    (r, World v (logged w) (trace w ++ [EvConvert client kwargs])).

Definition sdk_stream (client : handle) (kwargs : gmap string pyarg)
    : M world vstream :=
  fun w =>
    let '(r, v) := text_to_speech_stream client kwargs (vendor w) in
    (r, World v (logged w) (trace w ++ [EvStream client kwargs])).

(** A method runs on its object and the world. *)
Definition get_self {T} : M (T * world) T := fun s => (Ok (fst s), s).

Definition set_self {T} (self : T) : M (T * world) unit :=
  fun s => (Ok tt, (self, snd s)).

Definition in_world {T A} (m : M world A) : M (T * world) A :=
  fun s => let '(r, w) := m (snd s) in (r, (fst s, w)).
End Host.

(** ** [class ElevenLabsSTTModel(STTModel)] *)

Module ElevenLabsSTTModel.

(** The attributes [__init__] sets.  The values come from a settings
    mapping, so they are Python values; [_client] is [None] until the
    client is made.  [super().__init__("elevenlabs-stt")] is the host's
    base class and keeps nothing the adapter reads. *)
Record t : Type := Build {
  api_key : pyval;
  model_id : pyval;
  language_code : pyval;
  _client : option handle
}.

(** [__init__(self, api_key, model_id="scribe_v1", language_code=None)];
    an argument left out is [None] here and takes its default. *)
Definition __init__ (api_key : pyval) (model_id language_code : option pyval) : t :=
  {| api_key := api_key;
     model_id := default (PyStr "scribe_v1") model_id;
     language_code := default PyNone language_code;
     _client := None |}.

Definition with_client (self : t) (c : handle) : t :=
  {| api_key := api_key self;
     model_id := model_id self;
     language_code := language_code self;
     _client := Some c |}.

Section Methods.
Context `{VendorSDK}.

(** [_get_client]: the body of the [if self._client is None] block runs
    under the two [except] clauses; [return self._client] gives the
    cached handle, which is the one just stored when the block ran. *)
Definition _get_client : M (t * world) handle :=
  self <- get_self ;;
  match _client self with
  | Some c => ret c
  | None =>
      try_except
        (in_world sdk_import ;;
         c <- in_world (sdk_ElevenLabs (api_key self)) ;;
         set_self (with_client self c) ;;
         ret c)
        [ (is_ImportError,
           fun _ =>
             raise (Exn ImportError
               "elevenlabs is not installed. Install it with: pip install elevenlabs"));
          (is_Exception,
           fun e =>
             in_world (log "error"
               ("Failed to initialize ElevenLabs client: " ++ exn_str e)) ;;
             raise e) ]
  end.

(** The keyword arguments [transcribe] builds. *)
Definition transcribe_kwargs (self : t) (audio_file : pyval) : gmap string pyval :=
  let kwargs : gmap string pyval :=
    <["model_id" := model_id self]> (<["file" := audio_file]> ∅) in
  if truthy (language_code self)
  then <["language_code" := language_code self]> kwargs
  else kwargs.

(** [result.text.strip() if result.text else ""] *)
Definition transcribed_text (result : stt_response) : string :=
  match text result with
  | Some s => if truthy (PyStr s) then strip s else ""
  | None => ""
  end.

Definition transcribe (audio : AudioData) : M (t * world) string :=
  client <- _get_client ;;
  try_except
    (wav_data <- lift_res (get_wav_data audio 16000 2) ;;
     let audio_file := PyBytesIO "audio.wav" wav_data in
     self <- get_self ;;
     result <- in_world (sdk_convert client (transcribe_kwargs self audio_file)) ;;
     ret (transcribed_text result))
    [ (is_Exception,
       fun e =>
         in_world (log "error"
           ("ElevenLabs STT transcription failed: " ++ exn_str e)) ;;
         raise e) ].
End Methods.

End ElevenLabsSTTModel.

(** ** [class ElevenLabsTTSModel(TTSModel)] *)

Module ElevenLabsTTSModel.

Record t : Type := Build {
  api_key : pyval;
  model_id : pyval;
  stability : float;
  similarity_boost : float;
  style : float;
  use_speaker_boost : bool;
  _client : option handle
}.

(** [__init__(self, api_key, model_id="eleven_flash_v2_5", stability=0.5,
    similarity_boost=0.75, style=0.0, use_speaker_boost=True)] *)
Definition __init__ (api_key : pyval) (model_id : option pyval)
    (stability similarity_boost style : option float)
    (use_speaker_boost : option bool) : t :=
  {| api_key := api_key;
     model_id := default (PyStr "eleven_flash_v2_5") model_id;
     stability := default 0.5%float stability;
     similarity_boost := default 0.75%float similarity_boost;
     style := default 0%float style;
     use_speaker_boost := default true use_speaker_boost;
     _client := None |}.

Definition with_client (self : t) (c : handle) : t :=
  {| api_key := api_key self;
     model_id := model_id self;
     stability := stability self;
     similarity_boost := similarity_boost self;
     style := style self;
     use_speaker_boost := use_speaker_boost self;
     _client := Some c |}.

(** A generator object made by [synthesize]: not yet started, suspended at
    the [yield] with the rest of the vendor stream ahead, or finished. *)
Inductive generator : Type :=
  | GenStart (text voice : string)
  | GenLoop (audio_stream : vstream)
  | GenDone.

Section Methods.
Context `{VendorSDK}.

Definition _get_client : M (t * world) handle :=
  self <- get_self ;;
  match _client self with
  | Some c => ret c
  | None =>
      try_except
        (in_world sdk_import ;;
         c <- in_world (sdk_ElevenLabs (api_key self)) ;;
         set_self (with_client self c) ;;
         ret c)
        [ (is_ImportError,
           fun _ =>
             raise (Exn ImportError
               "elevenlabs is not installed. Install it with: pip install elevenlabs"));
          (is_Exception,
           fun e =>
             in_world (log "error"
               ("Failed to initialize ElevenLabs client: " ++ exn_str e)) ;;
             raise e) ]
  end.

(** The [voice_settings] dictionary. *)
Definition voice_settings (self : t) : gmap string pyval :=
  <["use_speaker_boost" := PyBool (use_speaker_boost self)]>
    (<["style" := PyFloat (style self)]>
       (<["similarity_boost" := PyFloat (similarity_boost self)]>
          (<["stability" := PyFloat (stability self)]> ∅))).

(** The keyword arguments of [client.text_to_speech.stream]. *)
Definition stream_kwargs (self : t) (text voice : string) : gmap string pyarg :=
  <["voice_settings" := Dict (voice_settings self)]>
    (<["output_format" := Val (PyStr "pcm_24000")]>
       (<["model_id" := Val (model_id self)]>
          (<["voice_id" := Val (PyStr voice)]>
             (<["text" := Val (PyStr text)]> ∅)))).

(** [for chunk in audio_stream: if isinstance(chunk, bytes) and chunk:
    yield chunk], up to the next [yield]: the chunk and what is left of
    the stream, or [None] when the stream ends first.  The loop ends when
    the iterator is exhausted, which an iterator signals by raising
    [StopIteration]; any other exception leaves the loop. *)
Fixpoint for_chunk (audio_stream : vstream) : M (t * world) (option (pyval * vstream)) :=
  match audio_stream with
  | SEnd => ret None
  | SItem chunk rest =>
      if is_bytes chunk && truthy chunk then ret (Some (chunk, rest))
      else for_chunk rest
  | SRaise e => if is_StopIteration (exn_class_of e) then ret None else raise e
  end.

(** What the caller of [next] sees of an exception that leaves a generator
    body: a [StopIteration] is replaced by
    [RuntimeError("generator raised StopIteration")] (PEP 479); any other
    exception is the one that left the body. *)
Definition generator_raised (e : exn) : exn :=
  if is_StopIteration (exn_class_of e)
  then Exn RuntimeError "generator raised StopIteration"
  else e.

(** The [try] block of [synthesize], entered at the top or resumed after
    a [yield], with its [except Exception] clause. *)
Definition in_try (body : M (t * world) (option (pyval * vstream)))
    : M (t * world) (option (pyval * vstream)) :=
  try_except body
    [ (is_Exception,
       fun e =>
         in_world (log "error"
           ("ElevenLabs TTS synthesis failed: " ++ exn_str e)) ;;
         raise e) ].

(** Calling the generator function runs none of its body. *)
Definition synthesize (text voice : string) : generator := GenStart text voice.

(** [next(g)]: run the body to the next [yield] ([Some chunk]), to its end
    ([None], Python's [StopIteration]) or to an exception.  A generator
    that ended or raised is finished.  An exception leaves the body from
    [self._get_client()], which runs in the body before the [try], or from
    the [except] clause's [raise]; the caller gets it as [generator_raised]
    says. *)
Definition next (g : generator) (s : t * world)
    : res (option pyval) * generator * (t * world) :=
  let resume (r : res (option (pyval * vstream)) * (t * world)) :=
    match r with
    | (Ok (Some (chunk, rest)), s1) => (Ok (Some chunk), GenLoop rest, s1)
    | (Ok None, s1) => (Ok None, GenDone, s1)
    | (Raise e, s1) => (Raise (generator_raised e), GenDone, s1)
    end in
  match g with
  | GenStart text voice =>
      match _get_client s with
      | (Raise e, s1) => (Raise (generator_raised e), GenDone, s1)
      | (Ok client, s1) =>
          resume
            (in_try
               (self <- get_self ;;
                audio_stream <-
                  in_world (sdk_stream client (stream_kwargs self text voice)) ;;
                for_chunk audio_stream) s1)
      end
  | GenLoop audio_stream => resume (in_try (for_chunk audio_stream) s)
  | GenDone => (Ok None, GenDone, s)
  end.

(** Iterating a generator to its end, as [list(g)] or a [for] loop does:
    the chunks received, how the iteration ended, and the generator and
    state it leaves.  [fuel] bounds the number of [next] calls; [None]
    when it runs out. *)
Fixpoint iterate (fuel : nat) (g : generator) (s : t * world)
    : option (list pyval * res unit * generator * (t * world)) :=
  match fuel with
  | O => None
  | S fuel' =>
      match next g s with
      | (Ok (Some chunk), g1, s1) =>
          match iterate fuel' g1 s1 with
          | Some (chunks, last, g2, s2) => Some (chunk :: chunks, last, g2, s2)
          | None => None
          end
      | (Ok None, g1, s1) => Some ([], Ok tt, g1, s1)
      | (Raise e, g1, s1) => Some ([], Raise e, g1, s1)
      end
  end.
End Methods.

End ElevenLabsTTSModel.

(** ** [class ElevenLabsPlugin(PluginBase)] *)

Module ElevenLabsPlugin.

(** The fields of a provider's settings grids, as [__init__] declares
    them: [TextSetting(key, label, placeholder, default_value, hidden)] and
    [NumericalSetting(key, label, placeholder, default_value, min_value,
    max_value, step)]. *)
Inductive setting : Type :=
  | TextSetting (key label placeholder default_value : string) (hidden : bool)
  | NumericalSetting (key label placeholder : string)
      (default_value min_value max_value step : float).

Record SettingsGrid : Type := {
  grid_key : string;
  grid_label : string;
  fields : list setting
}.

Record ModelProviderDefinition : Type := {
  kind : string;
  id : string;
  label : string;
  settings_config : list SettingsGrid
}.

Definition credentials_grid : SettingsGrid :=
  {| grid_key := "credentials";
     grid_label := "Credentials";
     fields :=
       [ TextSetting "elevenlabs_api_key" "API Key"
           "Enter your ElevenLabs API key" "" true ] |}.

#[warnings="-inexact-float"]
Definition model_providers : list ModelProviderDefinition :=
  [ {| kind := "stt";
       id := "elevenlabs-stt";
       label := "ElevenLabs STT";
       settings_config :=
         [ credentials_grid;
           {| grid_key := "settings";
              grid_label := "Settings";
              fields :=
                [ TextSetting "elevenlabs_stt_model_id" "Model ID"
                    "scribe_v1" "scribe_v1" false;
                  TextSetting "elevenlabs_stt_language" "Language Code (optional)"
                    "en" "" false ] |} ] |};
    {| kind := "tts";
       id := "elevenlabs-tts";
       label := "ElevenLabs TTS";
       settings_config :=
         [ credentials_grid;
           {| grid_key := "settings";
              grid_label := "Settings";
              fields :=
                [ TextSetting "elevenlabs_model_id" "Model ID"
                    "eleven_flash_v2_5" "eleven_flash_v2_5" false;
                  TextSetting "elevenlabs_voice_id" "Voice ID"
                    "JBFqnCBsd6RMkjVDRZzb" "JBFqnCBsd6RMkjVDRZzb" false;
                  NumericalSetting "elevenlabs_stability" "Stability" "0.5"
                    0.5 0 1 0.05;
                  NumericalSetting "elevenlabs_similarity_boost" "Similarity Boost"
                    "0.75" 0.75 0 1 0.05;
                  NumericalSetting "elevenlabs_style" "Style" "0.0"
                    0 0 1 0.05 ] |} ] |} ].

(** What [create_model] returns: [TTSModel | STTModel]. *)
Inductive model : Type :=
  | STT (m : ElevenLabsSTTModel.t)
  | TTS (m : ElevenLabsTTSModel.t).

Section Methods.
Context `{PyRuntime} `{VendorSDK}.

Definition create_model (provider_id : string) (settings : gmap string pyval)
    : M world model :=
  if String.eqb provider_id "elevenlabs-stt" then
    let api_key := dict_get settings "elevenlabs_api_key" (PyStr "") in
    if negb (truthy api_key) then
      raise (Exn ValueError "ElevenLabs STT: No API key provided")
    else
      let model_id := dict_get settings "elevenlabs_stt_model_id" (PyStr "scribe_v1") in
      let language_code :=
        py_or (dict_get settings "elevenlabs_stt_language" (PyStr "")) PyNone in
      ret (STT (ElevenLabsSTTModel.__init__ api_key (Some model_id)
                  (Some language_code)))
  else if String.eqb provider_id "elevenlabs-tts" then
    let api_key := dict_get settings "elevenlabs_api_key" (PyStr "") in
    if negb (truthy api_key) then
      raise (Exn ValueError "ElevenLabs TTS: No API key provided")
    else
      let model_id :=
        dict_get settings "elevenlabs_model_id" (PyStr "eleven_flash_v2_5") in
      stability <-
        lift_res (py_float (dict_get settings "elevenlabs_stability" (PyFloat 0.5))) ;;
      similarity_boost <-
        lift_res (py_float
                    (dict_get settings "elevenlabs_similarity_boost" (PyFloat 0.75))) ;;
      style <-
        lift_res (py_float (dict_get settings "elevenlabs_style" (PyFloat 0))) ;;
      ret (TTS (ElevenLabsTTSModel.__init__ api_key (Some model_id)
                  (Some stability) (Some similarity_boost) (Some style) None))
  else
    raise (Exn ValueError ("Unknown ElevenLabs provider: " ++ provider_id)).
End Methods.

End ElevenLabsPlugin.

(** ** Vocabulary of the statements *)

(** *** Whitespace around a stripped text *)

(** The text begins with a whitespace code point. *)
Definition starts_with_space (l : list ascii) : bool :=
  match l with
  | a :: l1 =>
      ws1 a
      || match l1 with
         | b :: l2 =>
             ws2 a b || match l2 with c :: _ => ws3 a b c | [] => false end
         | [] => false
         end
  | [] => false
  end.

(** The text, given reversed, ends with a whitespace code point. *)
Definition rev_ends_with_space (l : list ascii) : bool :=
  match l with
  | c :: l1 =>
      ws1 c
      || match l1 with
         | b :: l2 =>
             ws2 b c || match l2 with a :: _ => ws3 a b c | [] => false end
         | [] => false
         end
  | [] => false
  end.

Definition ends_with_space (l : list ascii) : bool := rev_ends_with_space (rev l).

(** The text is a run of whitespace code points and nothing else. *)
Inductive spaces : list ascii -> Prop :=
  | spaces_nil : spaces []
  | spaces_1 a l : ws1 a = true -> spaces l -> spaces (a :: l)
  | spaces_2 a b l : ws2 a b = true -> spaces l -> spaces (a :: b :: l)
  | spaces_3 a b c l : ws3 a b c = true -> spaces l -> spaces (a :: b :: c :: l).

(** [out] is [s] without the whitespace at its two ends. *)
Definition stripped_of (s out : string) : Prop :=
  exists l r : list ascii,
    list_ascii_of_string s = (l ++ list_ascii_of_string out ++ r)%list
    /\ spaces l /\ spaces r
    /\ starts_with_space (list_ascii_of_string out) = false
    /\ ends_with_space (list_ascii_of_string out) = false.

(** *** Vendor streams and what passes the filter *)

(** The stream that delivers [items] and then ends as [last] says. *)
Fixpoint stream_of (items : list pyval) (last : vstream) : vstream :=
  match items with
  | [] => last
  | chunk :: rest => SItem chunk (stream_of rest last)
  end.

(** The test of [synthesize]'s loop: [isinstance(chunk, bytes) and chunk]. *)
Definition is_audio (chunk : pyval) : bool := is_bytes chunk && truthy chunk.

(** *** Reading the record of vendor calls *)

(** The clients that were constructed, with the key each was given. *)
Definition constructions (tr : list event) : list (pyval * handle) :=
  flat_map
    (fun ev =>
       match ev with
       | EvElevenLabs k (Ok c) => [(k, c)]
       | _ => []
       end) tr.

(** The client each remote call went through. *)
Definition clients_used (tr : list event) : list handle :=
  flat_map
    (fun ev =>
       match ev with
       | EvConvert c _ | EvStream c _ => [c]
       | EvElevenLabs _ _ => []
       end) tr.

(** The client discipline of one adapter, read off the record of its vendor
    calls: with no client cached none was constructed and no remote call was
    made; with client [c] cached it is the only one constructed, it was given
    the adapter's key, and every remote call went through it. *)
Definition one_client (key : pyval) (cached : option handle) (tr : list event) : Prop :=
  match cached with
  | None => constructions tr = [] /\ clients_used tr = []
  | Some c => constructions tr = [(key, c)] /\ Forall (eq c) (clients_used tr)
  end.

(** What one call may add to that record, going from [cached] to [cached1]. *)
Definition client_step (key : pyval) (cached cached1 : option handle) (tr : list event)
    : Prop :=
  match cached with
  | Some c => cached1 = Some c /\ constructions tr = [] /\ Forall (eq c) (clients_used tr)
  | None =>
      (cached1 = None /\ constructions tr = [] /\ clients_used tr = [])
      \/ (exists c, cached1 = Some c /\ constructions tr = [(key, c)]
                    /\ Forall (eq c) (clients_used tr))
  end.

(** A synthesis request carries [use_speaker_boost = True]. *)
Definition sends_speaker_boost (ev : event) : Prop :=
  match ev with
  | EvStream _ kwargs =>
      exists vs, kwargs !! "voice_settings" = Some (Dict vs)
                 /\ vs !! "use_speaker_boost" = Some (PyBool true)
  | _ => True
  end.

(** *** Sequences of calls on one adapter *)

Section Calls.
Context `{VendorSDK}.

(** One [transcribe] call after the other on the same adapter. *)
Fixpoint transcribe_all (audios : list AudioData) (s : ElevenLabsSTTModel.t * world)
    : list (res string) * (ElevenLabsSTTModel.t * world) :=
  match audios with
  | [] => ([], s)
  | audio :: rest =>
      let '(r, s1) := ElevenLabsSTTModel.transcribe audio s in
      let '(rs, s2) := transcribe_all rest s1 in
      (r :: rs, s2)
  end.

(** What a host can do with a text-to-speech adapter: call [synthesize],
    which makes a new generator, or advance one of the generators it
    holds.  Generators of one adapter may be advanced in any order. *)
Inductive tts_call : Type :=
  | CallSynthesize (text voice : string)
  | CallNext (i : nat).

Definition tts_step (c : tts_call)
    (st : list ElevenLabsTTSModel.generator * (ElevenLabsTTSModel.t * world))
    : list ElevenLabsTTSModel.generator * (ElevenLabsTTSModel.t * world) :=
  let '(gens, s) := st in
  match c with
  | CallSynthesize text voice =>
      ((gens ++ [ElevenLabsTTSModel.synthesize text voice])%list, s)
  | CallNext i =>
      match gens !! i with
      | Some g =>
          let '(_, g1, s1) := ElevenLabsTTSModel.next g s in
          (<[i := g1]> gens, s1)
      | None => (gens, s)
      end
  end.

Definition tts_run (cs : list tts_call)
    (st : list ElevenLabsTTSModel.generator * (ElevenLabsTTSModel.t * world))
    : list ElevenLabsTTSModel.generator * (ElevenLabsTTSModel.t * world) :=
  fold_left (fun st c => tts_step c st) cs st.
(** What an [except Exception as e: log('error', f"<context>{e}"); raise]
    clause makes of an exception [e] that reaches it: the same exception
    goes on to the caller, after one log entry when the clause catches it. *)
Definition logged_and_raised {T A} (context : string) (e : exn) (s : T * world)
    : res A * (T * world) :=
  if is_Exception (exn_class_of e) then
    (Raise e,
     (fst s,
      World (vendor (snd s))
        (logged (snd s) ++ [("error", (context ++ exn_str e)%string)])%list
        (trace (snd s))))
  else (Raise e, s).
(** How a [next] of a [synthesize] generator ends when an exception leaves
    its body: the caller gets the exception as [generator_raised] says, and
    the generator is finished. *)
Definition stopped (r : res (option pyval) * (ElevenLabsTTSModel.t * world))
    : res (option pyval) * ElevenLabsTTSModel.generator * (ElevenLabsTTSModel.t * world) :=
  (match fst r with
   | Raise e => Raise (ElevenLabsTTSModel.generator_raised e)
   | Ok o => Ok o
   end,
   ElevenLabsTTSModel.GenDone, snd r).
End Calls.

(** *** A scripted vendor and runtime, for concrete runs *)

(** The runtime's numeric parser on the two texts the examples use. *)
Definition scripted_float (v : pyval) : res float :=
  match v with
  | PyStr "0.25" => Ok 0.25%float
  | PyStr "1" => Ok 1%float
  | _ => Raise (Exn ValueError "could not convert string to float")
  end.

Lemma scripted_float_error v e :
  scripted_float v = Raise e -> exn_class_of e = ValueError.
Proof.
  unfold scripted_float; intros Hr.
  repeat match type of Hr with
         | match ?x with _ => _ end = _ => destruct x
         end; inversion Hr; reflexivity.
Qed.

Definition scripted_runtime : PyRuntime :=
  {| float_from_string := scripted_float;
     float_from_string_error := scripted_float_error |}.

(** A vendor whose state counts the calls made to it and whose answers are
    fixed in advance: the constructor's, the transcription's, the stream's. *)
Definition scripted_vendor (client : res handle) (transcript : res stt_response)
    (audio_stream : res vstream) : VendorSDK :=
  {| vstate := nat;
     import_ElevenLabs := fun n => (Ok tt, S n);
     ElevenLabs := fun _ n => (client, S n);
     speech_to_text_convert := fun _ _ n => (transcript, S n);
     text_to_speech_stream := fun _ _ n => (audio_stream, S n) |}.

Definition abc : pyval := PyBytes (list_byte_of_string "abc").
Definition def : pyval := PyBytes (list_byte_of_string "def").

(** The vendor of the examples: client 7, a transcript with blanks around
    it, and a stream with an empty chunk in the middle. *)
Definition demo_vendor : VendorSDK :=
  scripted_vendor (Ok 7) (Ok {| text := Some "  hello world  " |})
    (Ok (stream_of [abc; PyBytes []; def] SEnd)).

Definition fresh_world (V : VendorSDK) (v : @vstate V) : @world V := World v [] [].

Definition silence : AudioData := {| get_wav_data := fun _ _ => Ok [] |}.

(** A vendor whose transcription is refused and whose stream breaks after
    the first chunk. *)
Definition quota_exceeded : exn := Exn (OtherException "ApiError") "quota exceeded".
Definition connection_reset : exn := Exn (OtherException "ApiError") "connection reset".

Definition failing_vendor : VendorSDK :=
  scripted_vendor (Ok 7) (Raise quota_exceeded)
    (Ok (stream_of [abc; PyNone] (SRaise connection_reset))).

(** A vendor whose streaming call raises [StopIteration]. *)
Definition stop_iteration : exn := Exn StopIteration "no more audio".

Definition stopping_vendor : VendorSDK :=
  scripted_vendor (Ok 7) (Ok {| text := None |}) (Raise stop_iteration).

(** Adapters made with their constructors' defaults. *)
Definition demo_stt : ElevenLabsSTTModel.t :=
  ElevenLabsSTTModel.__init__ (PyStr "sk") None None.

Definition demo_tts : ElevenLabsTTSModel.t :=
  ElevenLabsTTSModel.__init__ (PyStr "sk") None None None None None.

(** Two settings mappings that differ in the voice id alone. *)
Definition voice_a_settings : gmap string pyval :=
  <["elevenlabs_voice_id" := PyStr "voice-a"]> (<["elevenlabs_api_key" := PyStr "sk"]> ∅).

Definition voice_b_settings : gmap string pyval :=
  <["elevenlabs_voice_id" := PyStr "voice-b"]> (<["elevenlabs_api_key" := PyStr "sk"]> ∅).

(** Settings as a host would pass them. *)
Definition demo_settings : gmap string pyval :=
  <["elevenlabs_stt_language" := PyStr "en"]>
    (<["elevenlabs_stability" := PyStr "0.25"]>
       (<["elevenlabs_voice_id" := PyStr "voice-a"]>
          (<["elevenlabs_api_key" := PyStr "sk"]> ∅))).

(** *** Client construction, the declared settings and what is read *)

(** The exception [_get_client] raises in place of any [ImportError]. *)
Definition not_installed : exn :=
  Exn ImportError "elevenlabs is not installed. Install it with: pip install elevenlabs".

Section Construction.
Context `{VendorSDK}.

(** The vendor's part of [_get_client]'s [try] block: the import, then the
    constructor call. *)
Definition open_client (api_key : pyval) : M world handle :=
  sdk_import ;; sdk_ElevenLabs api_key.
End Construction.

(** The key and the default value a settings field declares. *)
Definition setting_key (f : ElevenLabsPlugin.setting) : string :=
  match f with
  | ElevenLabsPlugin.TextSetting key _ _ _ _ => key
  | ElevenLabsPlugin.NumericalSetting key _ _ _ _ _ _ => key
  end.

Definition setting_default (f : ElevenLabsPlugin.setting) : pyval :=
  match f with
  | ElevenLabsPlugin.TextSetting _ _ _ default_value _ => PyStr default_value
  | ElevenLabsPlugin.NumericalSetting _ _ _ default_value _ _ _ => PyFloat default_value
  end.

(** The settings mapping that holds every declared field of a provider at
    its default. *)
Definition schema_defaults (p : ElevenLabsPlugin.ModelProviderDefinition)
    : gmap string pyval :=
  list_to_map
    (map (fun f => (setting_key f, setting_default f))
       (flat_map ElevenLabsPlugin.fields (ElevenLabsPlugin.settings_config p))).

(** The settings keys [create_model] looks up, by provider id. *)
Definition read_keys (provider_id : string) : list string :=
  if String.eqb provider_id "elevenlabs-stt" then
    [ "elevenlabs_api_key"; "elevenlabs_stt_model_id"; "elevenlabs_stt_language" ]
  else if String.eqb provider_id "elevenlabs-tts" then
    [ "elevenlabs_api_key"; "elevenlabs_model_id"; "elevenlabs_stability";
      "elevenlabs_similarity_boost"; "elevenlabs_style" ]
  else [].

(** A vendor whose constructor fails until its state has reached 2, that
    is, on the first attempt from state 0. *)
Definition flaky_vendor : VendorSDK :=
  {| vstate := nat;
     import_ElevenLabs := fun n => (Ok tt, S n);
     ElevenLabs :=
       fun _ n => if Nat.ltb n 2 then (Raise connection_reset, S n) else (Ok 7, S n);
     speech_to_text_convert :=
       fun _ _ n => (Ok {| text := Some "  hello world  " |}, S n);
     text_to_speech_stream :=
       fun _ _ n => (Ok (stream_of [abc; PyBytes []; def] SEnd), S n) |}.

(** A vendor whose library is missing. *)
Definition missing_vendor : VendorSDK :=
  {| vstate := nat;
     import_ElevenLabs :=
       fun n => (Raise (Exn ModuleNotFoundError "No module named 'elevenlabs'"), S n);
     ElevenLabs := fun _ n => (Ok 7, S n);
     speech_to_text_convert := fun _ _ n => (Ok {| text := None |}, S n);
     text_to_speech_stream := fun _ _ n => (Ok SEnd, S n) |}.

(** What a call may add to the log: nothing when it returns normally, at
    most one entry otherwise, always at level "error". *)
Definition quiet_unless_failed {A} (r : res A) (lg lg1 : list (string * string)) : Prop :=
  exists entries,
    lg1 = (lg ++ entries)%list /\ length entries <= 1
    /\ Forall (fun entry => fst entry = "error") entries
    /\ (forall a, r = Ok a -> entries = []).

(** A vendor whose transcription is a text of blanks. *)
Definition blank_vendor : VendorSDK :=
  scripted_vendor (Ok 7) (Ok {| text := Some "   " |}) (Ok SEnd).

(** Settings with a shaping number present but [None]. *)
Definition none_settings : gmap string pyval :=
  <["elevenlabs_stability" := PyNone]> (<["elevenlabs_api_key" := PyStr "sk"]> ∅).

(** * Properties *)

(** ** [str.strip()] removes exactly the whitespace at the two ends *)

Local Open Scope list_scope.

Lemma spaces_app (l r : list ascii) : spaces l -> spaces r -> spaces (l ++ r).
Proof.
  induction 1 as [|a l Ha _ IH|a b l Hab _ IH|a b c l Habc _ IH]; intros Hr; simpl.
  - exact Hr.
  - apply spaces_1; auto.
  - apply spaces_2; auto.
  - apply spaces_3; auto.
Qed.

Lemma starts_with_space_app (m r : list ascii) :
  starts_with_space m = true -> starts_with_space (m ++ r) = true.
Proof.
  destruct m as [|a [|b [|c m]]]; simpl; try discriminate.
  - rewrite orb_false_r. intros ->. reflexivity.
  - rewrite orb_false_r. intros Hm.
    apply orb_true_iff in Hm as [-> | ->]; [reflexivity|].
    rewrite orb_true_r. destruct r; reflexivity.
  - auto.
Qed.

Lemma lstrip_chars_spec (n : nat) :
  forall l : list ascii, length l <= n ->
    exists p, l = p ++ lstrip_chars l /\ spaces p
              /\ starts_with_space (lstrip_chars l) = false.
Proof.
  induction n as [|n IH]; intros l Hlen.
  - destruct l; [|simpl in Hlen; lia].
    exists []. repeat split; constructor.
  - destruct l as [|a l1]; [exists []; repeat split; constructor|].
    simpl in Hlen. cbn [lstrip_chars].
    destruct (ws1 a) eqn:Ha.
    { destruct (IH l1 ltac:(lia)) as (p & Hp & Hsp & Hst).
      exists (a :: p). split; [simpl; congruence|]. split; [apply spaces_1; auto|auto]. }
    destruct l1 as [|b l2].
    { exists []. repeat split; [constructor|]. simpl. rewrite Ha. reflexivity. }
    simpl in Hlen.
    destruct (ws2 a b) eqn:Hab.
    { destruct (IH l2 ltac:(lia)) as (p & Hp & Hsp & Hst).
      exists (a :: b :: p). split; [simpl; congruence|]. split; [apply spaces_2; auto|auto]. }
    destruct l2 as [|c l3].
    { exists []. repeat split; [constructor|]. simpl. rewrite Ha, Hab. reflexivity. }
    simpl in Hlen.
    destruct (ws3 a b c) eqn:Habc.
    { destruct (IH l3 ltac:(lia)) as (p & Hp & Hsp & Hst).
      exists (a :: b :: c :: p). split; [simpl; congruence|].
      split; [apply spaces_3; auto|auto]. }
    exists []. repeat split; [constructor|]. simpl. rewrite Ha, Hab, Habc. reflexivity.
Qed.

Lemma rstrip_rev_spec (n : nat) :
  forall l : list ascii, length l <= n ->
    exists p, l = p ++ rstrip_rev l /\ spaces (rev p)
              /\ rev_ends_with_space (rstrip_rev l) = false.
Proof.
  induction n as [|n IH]; intros l Hlen.
  - destruct l; [|simpl in Hlen; lia].
    exists []. repeat split; constructor.
  - destruct l as [|c l1]; [exists []; repeat split; constructor|].
    simpl in Hlen. cbn [rstrip_rev].
    destruct (ws1 c) eqn:Hc.
    { destruct (IH l1 ltac:(lia)) as (p & Hp & Hsp & Hst).
      exists (c :: p). split; [simpl; congruence|]. split; [|auto].
      simpl. apply spaces_app; [auto|]. apply spaces_1; [auto|constructor]. }
    destruct l1 as [|b l2].
    { exists []. repeat split; [constructor|]. simpl. rewrite Hc. reflexivity. }
    simpl in Hlen.
    destruct (ws2 b c) eqn:Hbc.
    { destruct (IH l2 ltac:(lia)) as (p & Hp & Hsp & Hst).
      exists (c :: b :: p). split; [simpl; congruence|]. split; [|auto].
      simpl. rewrite <- app_assoc. apply spaces_app; [auto|].
      simpl. apply spaces_2; [auto|constructor]. }
    destruct l2 as [|a l3].
    { exists []. repeat split; [constructor|]. simpl. rewrite Hc, Hbc. reflexivity. }
    simpl in Hlen.
    destruct (ws3 a b c) eqn:Habc.
    { destruct (IH l3 ltac:(lia)) as (p & Hp & Hsp & Hst).
      exists (c :: b :: a :: p). split; [simpl; congruence|]. split; [|auto].
      simpl. rewrite <- !app_assoc. apply spaces_app; [auto|].
      simpl. apply spaces_3; [auto|constructor]. }
    exists []. repeat split; [constructor|]. simpl. rewrite Hc, Hbc, Habc. reflexivity.
Qed.

Lemma strip_chars_spec (l : list ascii) :
  exists p r, l = p ++ strip_chars l ++ r /\ spaces p /\ spaces r
              /\ starts_with_space (strip_chars l) = false
              /\ ends_with_space (strip_chars l) = false.
Proof.
  destruct (lstrip_chars_spec (length l) l (le_n _)) as (p & Hp & Hsp & Hst).
  destruct (rstrip_rev_spec (length (rev (lstrip_chars l))) _ (le_n _))
    as (q & Hq & Hsq & Hen).
  assert (Hl : lstrip_chars l = strip_chars l ++ rev q).
  { unfold strip_chars, rstrip_chars.
    rewrite <- rev_app_distr, <- Hq, rev_involutive. reflexivity. }
  exists p, (rev q). split; [congruence|]. split; [auto|]. split; [auto|]. split.
  - destruct (starts_with_space (strip_chars l)) eqn:Hs; [|reflexivity].
    apply (starts_with_space_app _ (rev q)) in Hs. congruence.
  - unfold ends_with_space, strip_chars, rstrip_chars.
    rewrite rev_involutive. exact Hen.
Qed.

Lemma strip_stripped_of (s : string) : stripped_of s (strip s).
Proof.
  unfold stripped_of, strip. rewrite list_ascii_of_string_of_list_ascii.
  destruct (strip_chars_spec (list_ascii_of_string s)) as (p & r & H).
  exists p, r. exact H.
Qed.

Local Open Scope string_scope.

(** ** [create_model] *)

Section CreateModel.
Context `{PyRuntime} `{VendorSDK}.

Import ElevenLabsPlugin.

(** The two branches of the dispatch, with the [provider_id] test decided. *)
Lemma create_model_stt (settings : gmap string pyval) (w : world) :
  create_model "elevenlabs-stt" settings w =
    let api_key := dict_get settings "elevenlabs_api_key" (PyStr "") in
    if negb (truthy api_key) then
      (Raise (Exn ValueError "ElevenLabs STT: No API key provided"), w)
    else
      (Ok (STT (ElevenLabsSTTModel.__init__ api_key
                  (Some (dict_get settings "elevenlabs_stt_model_id" (PyStr "scribe_v1")))
                  (Some (py_or (dict_get settings "elevenlabs_stt_language" (PyStr ""))
                           PyNone)))), w).
Proof.
  unfold create_model. cbn [String.eqb Ascii.eqb Bool.eqb].
  cbv zeta. destruct (negb _); reflexivity.
Qed.

Lemma create_model_tts (settings : gmap string pyval) (w : world) :
  create_model "elevenlabs-tts" settings w =
    let api_key := dict_get settings "elevenlabs_api_key" (PyStr "") in
    if negb (truthy api_key) then
      (Raise (Exn ValueError "ElevenLabs TTS: No API key provided"), w)
    else
      match py_float (dict_get settings "elevenlabs_stability" (PyFloat 0.5)) with
      | Raise e => (Raise e, w)
      | Ok stability =>
          match py_float (dict_get settings "elevenlabs_similarity_boost" (PyFloat 0.75)) with
          | Raise e => (Raise e, w)
          | Ok similarity_boost =>
              match py_float (dict_get settings "elevenlabs_style" (PyFloat 0)) with
              | Raise e => (Raise e, w)
              | Ok style =>
                  (Ok (TTS (ElevenLabsTTSModel.__init__ api_key
                              (Some (dict_get settings "elevenlabs_model_id"
                                       (PyStr "eleven_flash_v2_5")))
                              (Some stability) (Some similarity_boost) (Some style)
                              None)), w)
              end
          end
      end.
Proof.
  unfold create_model. cbn [String.eqb Ascii.eqb Bool.eqb].
  cbv zeta. destruct (negb _); [reflexivity|].
  unfold bind, lift_res, ret.
  repeat match goal with |- context [py_float ?v] => destruct (py_float v) end;
    reflexivity.
Qed.

Lemma create_model_other (provider_id : string) (settings : gmap string pyval) (w : world) :
  provider_id <> "elevenlabs-stt" -> provider_id <> "elevenlabs-tts" ->
  create_model provider_id settings w =
    (Raise (Exn ValueError ("Unknown ElevenLabs provider: " ++ provider_id)), w).
Proof.
  intros Hstt Htts. unfold create_model.
  apply String.eqb_neq in Hstt, Htts. rewrite Hstt, Htts. reflexivity.
Qed.

(** The settings [create_model] looks at for a text-to-speech adapter. *)
Lemma create_model_tts_reads (k : string) (v : pyval) (settings : gmap string pyval)
    (w : world) :
  ~ In k [ "elevenlabs_api_key"; "elevenlabs_model_id"; "elevenlabs_stability";
           "elevenlabs_similarity_boost"; "elevenlabs_style" ] ->
  create_model "elevenlabs-tts" (<[k := v]> settings) w
  = create_model "elevenlabs-tts" settings w.
Proof.
  intros Hk. rewrite !create_model_tts. unfold dict_get.
  rewrite !lookup_insert_ne; [reflexivity|..];
    intros ->; apply Hk; simpl; tauto.
Qed.

End CreateModel.

(** ** Reading the record of vendor calls *)

Lemma constructions_app (tr1 tr2 : list event) :
  constructions (tr1 ++ tr2) = (constructions tr1 ++ constructions tr2)%list.
Proof. apply flat_map_app. Qed.

Lemma clients_used_app (tr1 tr2 : list event) :
  clients_used (tr1 ++ tr2) = (clients_used tr1 ++ clients_used tr2)%list.
Proof. apply flat_map_app. Qed.

(** Unfold the monad and split on what the vendor answers. *)
Ltac run_monad :=
  unfold try_except, bind, ret, raise, in_world, get_self, set_self, lift_res,
    log, sdk_import, sdk_ElevenLabs, sdk_convert, sdk_stream, logged_and_raised;
  cbn [fst snd handle_with vendor logged trace].

Ltac step := cbn [fst snd handle_with vendor logged trace].

(** ** The speech-to-text adapter *)

Section STT.
Context `{VendorSDK}.

Import ElevenLabsSTTModel.

(** [_get_client] returns the cached client, or constructs one with the
    adapter's key and caches it, or raises and leaves the adapter as it was,
    with no client constructed. *)
Lemma stt_get_client_cases (self : t) (w : world) :
  (exists c, _client self = Some c /\ _get_client (self, w) = (Ok c, (self, w)))
  \/ (_client self = None /\
      exists c w1,
        _get_client (self, w) = (Ok c, (with_client self c, w1))
        /\ logged w1 = logged w
        /\ exists tr, trace w1 = (trace w ++ tr)%list
             /\ constructions tr = [(api_key self, c)] /\ clients_used tr = [])
  \/ (_client self = None /\
      exists e w1,
        _get_client (self, w) = (Raise e, (self, w1))
        /\ exists tr, trace w1 = (trace w ++ tr)%list
             /\ constructions tr = [] /\ clients_used tr = []).
Proof.
  unfold _get_client. destruct (_client self) as [c|] eqn:Hc.
  - left. exists c. split; [reflexivity|]. run_monad. rewrite Hc. reflexivity.
  - right. run_monad. rewrite Hc. run_monad. destruct w as [v lg tr]. run_monad.
    destruct (import_ElevenLabs v) as [[[]|e] v1]; step.
    + destruct (ElevenLabs (api_key self) v1) as [[c|e] v2]; step.
      * left. split; [reflexivity|]. eexists _, _. split; [reflexivity|].
        split; [reflexivity|]. eexists. split; [reflexivity|]. split; reflexivity.
      * right. split; [reflexivity|].
        destruct (is_ImportError (exn_class_of e));
          [|destruct (is_Exception (exn_class_of e))];
          (eexists _, _; split; [reflexivity|]; eexists; split; [reflexivity|];
           split; reflexivity).
    + right. split; [reflexivity|].
      destruct (is_ImportError (exn_class_of e));
        [|destruct (is_Exception (exn_class_of e))];
        (eexists _, _; split; [reflexivity|]; exists [];
         split; [cbn; rewrite app_nil_r; reflexivity|]; split; reflexivity).
Qed.

(** A successful [_get_client] changes nothing of the adapter but [_client]. *)
Lemma stt_get_client_ok (self self1 : t) (w w1 : world) (c : handle) :
  _get_client (self, w) = (Ok c, (self1, w1)) ->
  _client self1 = Some c /\ api_key self1 = api_key self
  /\ model_id self1 = model_id self /\ language_code self1 = language_code self.
Proof.
  intros Hrun.
  destruct (stt_get_client_cases self w)
    as [(c0 & Hc & Hr) | [(Hc & c0 & w0 & Hr & _) | (Hc & e & w0 & Hr & _)]];
    rewrite Hr in Hrun; inversion Hrun; subst; auto.
Qed.

(** [transcribe] once the client is at hand: the audio is rendered, the
    endpoint is called once with the keyword arguments, and either the text
    comes back or the exception goes through the [except] clause. *)
Lemma stt_transcribe_run (audio : AudioData) (self self1 : t) (w w1 : world)
    (c : handle) :
  _get_client (self, w) = (Ok c, (self1, w1)) ->
  transcribe audio (self, w) =
    match get_wav_data audio 16000 2 with
    | Raise e =>
        logged_and_raised "ElevenLabs STT transcription failed: " e (self1, w1)
    | Ok wav_data =>
        let kwargs := transcribe_kwargs self1 (PyBytesIO "audio.wav" wav_data) in
        let w2 v := World v (logged w1) (trace w1 ++ [EvConvert c kwargs]) in
        match speech_to_text_convert c kwargs (vendor w1) with
        | (Ok result, v) => (Ok (transcribed_text result), (self1, w2 v))
        | (Raise e, v) =>
            logged_and_raised "ElevenLabs STT transcription failed: " e (self1, w2 v)
        end
    end.
Proof.
  intros Hc. unfold transcribe, bind at 1. rewrite Hc. run_monad.
  destruct (get_wav_data audio 16000 2) as [wav|e]; step.
  - destruct (speech_to_text_convert _ _ _) as [[result|e] v]; step.
    + reflexivity.
    + destruct (is_Exception _); reflexivity.
  - destruct (is_Exception _); reflexivity.
Qed.

(** When [_get_client] raises, so does [transcribe], with the same exception,
    and no remote call is made. *)
Lemma stt_transcribe_no_client (audio : AudioData) (self : t) (w : world)
    (e : exn) (s1 : t * world) :
  _get_client (self, w) = (Raise e, s1) ->
  transcribe audio (self, w) = (Raise e, s1).
Proof.
  intros Hc. unfold transcribe, bind at 1. rewrite Hc. reflexivity.
Qed.

End STT.

(** ** The text-to-speech adapter *)

Section TTS.
Context `{VendorSDK}.

Import ElevenLabsTTSModel.

Lemma tts_get_client_cases (self : t) (w : world) :
  (exists c, _client self = Some c /\ _get_client (self, w) = (Ok c, (self, w)))
  \/ (_client self = None /\
      exists c w1,
        _get_client (self, w) = (Ok c, (with_client self c, w1))
        /\ logged w1 = logged w
        /\ exists tr, trace w1 = (trace w ++ tr)%list
             /\ constructions tr = [(api_key self, c)] /\ clients_used tr = [])
  \/ (_client self = None /\
      exists e w1,
        _get_client (self, w) = (Raise e, (self, w1))
        /\ exists tr, trace w1 = (trace w ++ tr)%list
             /\ constructions tr = [] /\ clients_used tr = []).
Proof.
  unfold _get_client. destruct (_client self) as [c|] eqn:Hc.
  - left. exists c. split; [reflexivity|]. run_monad. rewrite Hc. reflexivity.
  - right. run_monad. rewrite Hc. run_monad. destruct w as [v lg tr]. run_monad.
    destruct (import_ElevenLabs v) as [[[]|e] v1]; step.
    + destruct (ElevenLabs (api_key self) v1) as [[c|e] v2]; step.
      * left. split; [reflexivity|]. eexists _, _. split; [reflexivity|].
        split; [reflexivity|]. eexists. split; [reflexivity|]. split; reflexivity.
      * right. split; [reflexivity|].
        destruct (is_ImportError (exn_class_of e));
          [|destruct (is_Exception (exn_class_of e))];
          (eexists _, _; split; [reflexivity|]; eexists; split; [reflexivity|];
           split; reflexivity).
    + right. split; [reflexivity|].
      destruct (is_ImportError (exn_class_of e));
        [|destruct (is_Exception (exn_class_of e))];
        (eexists _, _; split; [reflexivity|]; exists [];
         split; [cbn; rewrite app_nil_r; reflexivity|]; split; reflexivity).
Qed.

Lemma tts_get_client_ok (self self1 : t) (w w1 : world) (c : handle) :
  _get_client (self, w) = (Ok c, (self1, w1)) ->
  _client self1 = Some c /\ api_key self1 = api_key self
  /\ model_id self1 = model_id self /\ stability self1 = stability self
  /\ similarity_boost self1 = similarity_boost self /\ style self1 = style self
  /\ use_speaker_boost self1 = use_speaker_boost self.
Proof.
  intros Hrun.
  destruct (tts_get_client_cases self w)
    as [(c0 & Hc & Hr) | [(Hc & c0 & w0 & Hr & _) | (Hc & e & w0 & Hr & _)]];
    rewrite Hr in Hrun; inversion Hrun; subst; repeat split; auto.
Qed.

(** The loop, one vendor item at a time. *)
Lemma tts_next_item (chunk : pyval) (rest : vstream) (s : t * world) :
  next (GenLoop (SItem chunk rest)) s =
    if is_audio chunk then (Ok (Some chunk), GenLoop rest, s)
    else next (GenLoop rest) s.
Proof.
  unfold next, in_try, try_except. cbn [for_chunk]. fold (is_audio chunk).
  destruct (is_audio chunk); reflexivity.
Qed.

Lemma tts_next_end (s : t * world) : next (GenLoop SEnd) s = (Ok None, GenDone, s).
Proof. reflexivity. Qed.

Lemma tts_next_raise (e : exn) (s : t * world) :
  next (GenLoop (SRaise e)) s =
    if is_StopIteration (exn_class_of e) then (Ok None, GenDone, s)
    else stopped (logged_and_raised "ElevenLabs TTS synthesis failed: " e s).
Proof.
  unfold next, in_try, stopped. cbn [for_chunk].
  destruct (is_StopIteration (exn_class_of e)); run_monad; [reflexivity|].
  destruct (is_Exception _); reflexivity.
Qed.

(** An exception other than [StopIteration] reaches the caller as it is. *)
Lemma generator_raised_other (e : exn) :
  is_StopIteration (exn_class_of e) = false -> generator_raised e = e.
Proof. unfold generator_raised. intros ->. reflexivity. Qed.

Lemma generator_raised_stop (e : exn) :
  is_StopIteration (exn_class_of e) = true ->
  generator_raised e = Exn RuntimeError "generator raised StopIteration".
Proof. unfold generator_raised. intros ->. reflexivity. Qed.

(** What [stopped] makes of an exception that went through the [except]
    clause. *)
Lemma stopped_logged_and_raised (context : string) (e : exn) (s : t * world) :
  stopped (logged_and_raised context e s)
  = (Raise (generator_raised e), GenDone,
     snd (@logged_and_raised _ _ (option pyval) context e s)).
Proof.
  unfold stopped, logged_and_raised. destruct (is_Exception _); reflexivity.
Qed.

(** The first [next]: with the client at hand the stream is opened, once,
    and the loop starts on what the vendor returned. *)
Lemma tts_next_start (text voice : string) (self self1 : t) (w w1 : world)
    (c : handle) :
  _get_client (self, w) = (Ok c, (self1, w1)) ->
  next (synthesize text voice) (self, w) =
    let kwargs := stream_kwargs self1 text voice in
    let w2 v := World v (logged w1) (trace w1 ++ [EvStream c kwargs]) in
    match text_to_speech_stream c kwargs (vendor w1) with
    | (Ok audio_stream, v) => next (GenLoop audio_stream) (self1, w2 v)
    | (Raise e, v) =>
        stopped
          (logged_and_raised "ElevenLabs TTS synthesis failed: " e (self1, w2 v))
    end.
Proof.
  intros Hc. unfold synthesize, next at 1. rewrite Hc.
  unfold next, in_try, stopped. run_monad.
  destruct (text_to_speech_stream _ _ _) as [[audio_stream|e] v]; step.
  - reflexivity.
  - destruct (is_Exception _); reflexivity.
Qed.

Lemma tts_next_no_client (text voice : string) (self : t) (w : world)
    (e : exn) (s1 : t * world) :
  _get_client (self, w) = (Raise e, s1) ->
  next (synthesize text voice) (self, w) = (Raise (generator_raised e), GenDone, s1).
Proof.
  intros Hc. unfold synthesize, next. rewrite Hc. reflexivity.
Qed.

(** Iteration depends on the generator only through its next step. *)
Lemma tts_iterate_next (fuel : nat) (g g' : generator) (s s' : t * world) :
  next g s = next g' s' -> iterate fuel g s = iterate fuel g' s'.
Proof.
  intros Hn. destruct fuel; [reflexivity|]. cbn [iterate]. rewrite Hn. reflexivity.
Qed.

(** Iterating the loop over a stream of [items] that then closes: the items
    that pass the test, in order, and a normal end. *)
Lemma tts_iterate_items (items : list pyval) :
  forall (fuel : nat) (s : t * world),
    length items < fuel ->
    iterate fuel (GenLoop (stream_of items SEnd)) s
    = Some (List.filter is_audio items, Ok tt, GenDone, s).
Proof.
  induction items as [|chunk items IH]; intros fuel s Hfuel.
  - destruct fuel; [simpl in Hfuel; lia|]. reflexivity.
  - destruct fuel as [|fuel]; [simpl in Hfuel; lia|]. simpl in Hfuel.
    cbn [stream_of List.filter].
    destruct (is_audio chunk) eqn:Hchunk.
    + cbn [iterate]. rewrite tts_next_item, Hchunk.
      rewrite IH by lia. reflexivity.
    + rewrite <- (IH (S fuel) s) by lia.
      apply tts_iterate_next. rewrite tts_next_item, Hchunk. reflexivity.
Qed.

(** The same when the stream raises after [items]: what passed the test has
    been yielded, then the exception leaves through the [except] clause. *)
Lemma tts_iterate_items_raise (items : list pyval) (e : exn) :
  is_StopIteration (exn_class_of e) = false ->
  forall (fuel : nat) (s : t * world),
    length items < fuel ->
    iterate fuel (GenLoop (stream_of items (SRaise e))) s
    = Some (List.filter is_audio items, Raise e, GenDone,
            snd (@logged_and_raised _ _ unit "ElevenLabs TTS synthesis failed: " e s)).
Proof.
  intros Hstop.
  induction items as [|chunk items IH]; intros fuel s Hfuel.
  - destruct fuel; [simpl in Hfuel; lia|].
    cbn [stream_of iterate List.filter]. rewrite tts_next_raise, Hstop.
    rewrite stopped_logged_and_raised, (generator_raised_other _ Hstop).
    unfold logged_and_raised. destruct (is_Exception _); reflexivity.
  - destruct fuel as [|fuel]; [simpl in Hfuel; lia|]. simpl in Hfuel.
    cbn [stream_of List.filter].
    destruct (is_audio chunk) eqn:Hchunk.
    + cbn [iterate]. rewrite tts_next_item, Hchunk.
      rewrite IH by lia. reflexivity.
    + rewrite <- (IH (S fuel) s) by lia.
      apply tts_iterate_next. rewrite tts_next_item, Hchunk. reflexivity.
Qed.

(** And when the iterator raises [StopIteration] after [items], the stream
    has ended there, as if the vendor had closed it. *)
Lemma tts_iterate_items_stop (items : list pyval) (e : exn) :
  is_StopIteration (exn_class_of e) = true ->
  forall (fuel : nat) (s : t * world),
    length items < fuel ->
    iterate fuel (GenLoop (stream_of items (SRaise e))) s
    = Some (List.filter is_audio items, Ok tt, GenDone, s).
Proof.
  intros Hstop.
  induction items as [|chunk items IH]; intros fuel s Hfuel.
  - destruct fuel; [simpl in Hfuel; lia|].
    cbn [stream_of iterate List.filter]. rewrite tts_next_raise, Hstop. reflexivity.
  - destruct fuel as [|fuel]; [simpl in Hfuel; lia|]. simpl in Hfuel.
    cbn [stream_of List.filter].
    destruct (is_audio chunk) eqn:Hchunk.
    + cbn [iterate]. rewrite tts_next_item, Hchunk.
      rewrite IH by lia. reflexivity.
    + rewrite <- (IH (S fuel) s) by lia.
      apply tts_iterate_next. rewrite tts_next_item, Hchunk. reflexivity.
Qed.

(** What passes the test is a non-empty [bytes] value. *)
Lemma is_audio_bytes (chunk : pyval) :
  is_audio chunk = true -> exists b, chunk = PyBytes b /\ b <> [].
Proof.
  destruct chunk as [| | | | |b|]; try discriminate.
  destruct b; [discriminate|]. intros _. eexists. split; [reflexivity|discriminate].
Qed.

(** A chunk that [next] yields passed the test, whatever the generator, the
    adapter and the vendor. *)
Lemma tts_next_yields_audio (g g1 : generator) (s s1 : t * world) (chunk : pyval) :
  next g s = (Ok (Some chunk), g1, s1) -> is_audio chunk = true.
Proof.
  assert (Hloop : forall audio_stream s0,
             next (GenLoop audio_stream) s0 = (Ok (Some chunk), g1, s1) ->
             is_audio chunk = true).
  { induction audio_stream as [|item rest IH|e]; intros s0.
    - rewrite tts_next_end. discriminate.
    - rewrite tts_next_item. destruct (is_audio item) eqn:Hitem; [|apply IH].
      intros Hn. inversion Hn; subst. exact Hitem.
    - rewrite tts_next_raise. destruct (is_StopIteration _); [discriminate|].
      rewrite stopped_logged_and_raised. discriminate. }
  destruct g as [text voice|audio_stream|].
  - destruct s as [self w].
    destruct (_get_client (self, w)) as [[c|e] [self1 w1]] eqn:Hc.
    + change (GenStart text voice) with (synthesize text voice).
      rewrite (tts_next_start _ _ _ _ _ _ _ Hc). cbv zeta.
      destruct (text_to_speech_stream _ _ _) as [[audio_stream|e] v].
      * apply Hloop.
      * rewrite stopped_logged_and_raised. discriminate.
    + change (GenStart text voice) with (synthesize text voice).
      rewrite (tts_next_no_client _ _ _ _ _ _ Hc). discriminate.
  - apply Hloop.
  - discriminate.
Qed.

(** Iteration ends: from some fuel on it gives a result. *)
Lemma tts_iterate_loop_total (audio_stream : vstream) :
  forall s : t * world,
    exists n, forall fuel, n <= fuel ->
      exists chunks last g1 s1,
        iterate fuel (GenLoop audio_stream) s = Some (chunks, last, g1, s1).
Proof.
  induction audio_stream as [|item rest IH|e]; intros s.
  - exists 1. intros [|fuel] Hfuel; [lia|].
    cbn [iterate]. rewrite tts_next_end. eauto.
  - destruct (IH s) as [n Hn]. exists (S n). intros [|fuel] Hfuel; [lia|].
    destruct (is_audio item) eqn:Hitem.
    + cbn [iterate]. rewrite tts_next_item, Hitem.
      destruct (Hn fuel ltac:(lia)) as (chunks & last & g1 & s1 & Hrun).
      rewrite Hrun. eauto.
    + destruct (Hn (S fuel) ltac:(lia)) as (chunks & last & g1 & s1 & Hrun).
      exists chunks, last, g1, s1. rewrite <- Hrun.
      apply tts_iterate_next. rewrite tts_next_item, Hitem. reflexivity.
  - exists 1. intros [|fuel] Hfuel; [lia|].
    cbn [iterate]. rewrite tts_next_raise.
    destruct (is_StopIteration _); [eauto|].
    rewrite stopped_logged_and_raised. eauto.
Qed.

Lemma tts_iterate_total (g : generator) (s : t * world) :
  exists n, forall fuel, n <= fuel ->
    exists chunks last g1 s1, iterate fuel g s = Some (chunks, last, g1, s1).
Proof.
  destruct g as [text voice|audio_stream|].
  - destruct s as [self w].
    change (GenStart text voice) with (synthesize text voice).
    destruct (_get_client (self, w)) as [[c|e] [self1 w1]] eqn:Hc.
    + pose proof (tts_next_start text voice _ _ _ _ _ Hc) as Hn. cbv zeta in Hn.
      destruct (text_to_speech_stream _ _ _) as [[audio_stream|e] v].
      * destruct (tts_iterate_loop_total audio_stream
                    (self1, World v (logged w1)
                              (trace w1 ++ [EvStream c (stream_kwargs self1 text voice)])))
          as [n Hloop].
        exists n. intros fuel Hfuel. rewrite (tts_iterate_next fuel _ _ _ _ Hn).
        apply Hloop. exact Hfuel.
      * exists 1. intros [|fuel] Hfuel; [lia|]. cbn [iterate]. rewrite Hn.
        rewrite stopped_logged_and_raised. eauto.
    + exists 1. intros [|fuel] Hfuel; [lia|]. cbn [iterate].
      rewrite (tts_next_no_client _ _ _ _ _ _ Hc). eauto.
  - apply tts_iterate_loop_total.
  - exists 1. intros [|fuel] Hfuel; [lia|]. cbn [iterate next]. eauto.
Qed.

(** Every chunk an iteration receives passed the test. *)
Lemma tts_iterate_audio (fuel : nat) :
  forall (g g1 : generator) (s s1 : t * world) (chunks : list pyval) (last : res unit),
    iterate fuel g s = Some (chunks, last, g1, s1) ->
    Forall (fun chunk => is_audio chunk = true) chunks.
Proof.
  induction fuel as [|fuel IH]; intros g g1 s s1 chunks last Hrun.
  - discriminate.
  - cbn [iterate] in Hrun.
    destruct (next g s) as [[[[chunk|]|e] g2] s2] eqn:Hn.
    + destruct (iterate fuel g2 s2) as [[[[chunks2 last2] g3] s3]|] eqn:Hrest;
        [|discriminate].
      inversion Hrun; subst. constructor.
      * eapply tts_next_yields_audio. exact Hn.
      * eapply IH. exact Hrest.
    + inversion Hrun; subst. constructor.
    + inversion Hrun; subst. constructor.
Qed.

End TTS.

(** ** One client per adapter *)

Lemma one_client_step (key : pyval) (cached cached1 : option handle)
    (tr0 tr : list event) :
  one_client key cached tr0 -> client_step key cached cached1 tr ->
  one_client key cached1 (tr0 ++ tr).
Proof.
  unfold one_client, client_step. rewrite constructions_app, clients_used_app.
  destruct cached as [c|].
  - intros [Hcons Hused] (-> & Hcons1 & Hused1).
    rewrite Hcons, Hcons1. split; [reflexivity|]. apply Forall_app; auto.
  - intros [Hcons Hused] [(-> & Hcons1 & Hused1) | (c & -> & Hcons1 & Hused1)];
      rewrite Hcons, Hused, Hcons1; [rewrite Hused1|]; auto.
Qed.

Lemma client_step_nil (key : pyval) (cached : option handle) :
  client_step key cached cached [].
Proof.
  unfold client_step. destruct cached; [repeat split; constructor|left; auto].
Qed.

(** What [one_client] says in so many words. *)
Lemma one_client_facts (key : pyval) (cached : option handle) (tr : list event) :
  one_client key cached tr ->
  length (constructions tr) <= 1
  /\ (forall k c, In (k, c) (constructions tr) -> k = key /\ cached = Some c)
  /\ (forall c, In c (clients_used tr) -> cached = Some c)
  /\ (forall c, cached = Some c -> constructions tr = [(key, c)]).
Proof.
  unfold one_client. destruct cached as [c|]; intros [Hcons Hused]; rewrite Hcons.
  - split; [simpl; lia|]. split.
    { intros k c0 [Heq|[]]. inversion Heq; auto. }
    split.
    { intros c0 Hin. rewrite List.Forall_forall in Hused. rewrite (Hused c0 Hin). reflexivity. }
    intros c0 Heq. inversion Heq; reflexivity.
  - split; [simpl; lia|]. split; [intros k c []|]. split.
    { rewrite Hused. intros c []. }
    discriminate.
Qed.

Section ClientDiscipline.
Context `{VendorSDK}.

Lemma logged_and_raised_effect {T A} (context : string) (e : exn) (s : T * world) :
  exists w1, @logged_and_raised _ T A context e s = (Raise e, (fst s, w1))
             /\ vendor w1 = vendor (snd s) /\ trace w1 = trace (snd s)
             /\ (is_Exception (exn_class_of e) = true ->
                 logged w1 = (logged (snd s) ++ [("error", (context ++ exn_str e)%string)])%list)
             /\ (is_Exception (exn_class_of e) = false -> w1 = snd s).
Proof.
  unfold logged_and_raised. destruct s as [self w].
  destruct (is_Exception _); eexists; (split; [reflexivity|]); cbn [fst snd vendor trace logged];
    repeat split; try reflexivity; discriminate.
Qed.

(** One [transcribe] keeps the key and follows the client discipline. *)
Lemma stt_transcribe_effect (audio : AudioData) (self self1 : ElevenLabsSTTModel.t)
    (w w1 : world) (r : res string) :
  ElevenLabsSTTModel.transcribe audio (self, w) = (r, (self1, w1)) ->
  ElevenLabsSTTModel.api_key self1 = ElevenLabsSTTModel.api_key self
  /\ exists tr, trace w1 = (trace w ++ tr)%list
       /\ client_step (ElevenLabsSTTModel.api_key self)
            (ElevenLabsSTTModel._client self) (ElevenLabsSTTModel._client self1) tr.
Proof.
  intros Hrun.
  destruct (stt_get_client_cases self w)
    as [(c & Hcached & Hc) | [(Hcached & c & w0 & Hc & _ & tr & Htr & Hcons & Hused)
                              | (Hcached & e & w0 & Hc & tr & Htr & Hcons & Hused)]].
  - rewrite (stt_transcribe_run _ _ _ _ _ _ Hc) in Hrun.
    unfold client_step. rewrite Hcached.
    destruct (get_wav_data audio 16000 2) as [wav|e].
    + cbv zeta in Hrun.
      destruct (speech_to_text_convert _ _ _) as [[result|e] v].
      * inversion Hrun; subst. split; [reflexivity|]. eexists. split; [reflexivity|].
        repeat split; [assumption|repeat constructor].
      * destruct (logged_and_raised_effect (A := string)
                    "ElevenLabs STT transcription failed: " e
                    (self, World v (logged w) (trace w ++ [EvConvert c
                       (ElevenLabsSTTModel.transcribe_kwargs self
                          (PyBytesIO "audio.wav" wav))])))
          as (w2 & Heq & _ & Htr & _).
        rewrite Heq in Hrun. inversion Hrun; subst. split; [reflexivity|].
        eexists. split; [exact Htr|]. repeat split; [assumption|repeat constructor].
    + destruct (logged_and_raised_effect (A := string)
                  "ElevenLabs STT transcription failed: " e (self, w))
        as (w2 & Heq & _ & Htr & _).
      rewrite Heq in Hrun. inversion Hrun; subst. split; [reflexivity|].
      exists []. rewrite app_nil_r. split; [exact Htr|].
      repeat split; [assumption|constructor].
  - rewrite (stt_transcribe_run _ _ _ _ _ _ Hc) in Hrun.
    unfold client_step. rewrite Hcached.
    destruct (get_wav_data audio 16000 2) as [wav|e].
    + cbv zeta in Hrun.
      destruct (speech_to_text_convert _ _ _) as [[result|e] v].
      * inversion Hrun; subst. split; [reflexivity|]. cbn [trace]. rewrite Htr.
        rewrite <- app_assoc. eexists. split; [reflexivity|]. right. exists c.
        rewrite constructions_app, clients_used_app, Hcons, Hused.
        repeat split; repeat constructor.
      * destruct (logged_and_raised_effect (A := string)
                    "ElevenLabs STT transcription failed: " e
                    (ElevenLabsSTTModel.with_client self c,
                     World v (logged w0) (trace w0 ++ [EvConvert c
                       (ElevenLabsSTTModel.transcribe_kwargs
                          (ElevenLabsSTTModel.with_client self c)
                          (PyBytesIO "audio.wav" wav))])))
          as (w2 & Heq & _ & Htr2 & _).
        rewrite Heq in Hrun. inversion Hrun; subst. split; [reflexivity|].
        rewrite Htr2. cbn [snd trace]. rewrite Htr, <- app_assoc.
        eexists. split; [reflexivity|]. right. exists c.
        rewrite constructions_app, clients_used_app, Hcons, Hused.
        repeat split; repeat constructor.
    + destruct (logged_and_raised_effect (A := string)
                  "ElevenLabs STT transcription failed: " e
                  (ElevenLabsSTTModel.with_client self c, w0))
        as (w2 & Heq & _ & Htr2 & _).
      rewrite Heq in Hrun. inversion Hrun; subst. split; [reflexivity|].
      rewrite Htr2. cbn [snd]. exists tr. split; [exact Htr|]. right. exists c.
      rewrite Hcons, Hused. repeat split; constructor.
  - rewrite (stt_transcribe_no_client _ _ _ _ _ Hc) in Hrun. inversion Hrun; subst.
    split; [reflexivity|]. exists tr. split; [exact Htr|].
    unfold client_step. rewrite Hcached. left. auto.
Qed.

End ClientDiscipline.

Section SynthesisDiscipline.
Context `{VendorSDK}.

Import ElevenLabsTTSModel.

(** A request made by an adapter with speaker boost on says so. *)
Lemma stream_kwargs_speaker_boost (self : t) (text voice : string) (c : handle) :
  use_speaker_boost self = true ->
  sends_speaker_boost (EvStream c (stream_kwargs self text voice)).
Proof.
  intros Hboost. exists (voice_settings self). split; [reflexivity|].
  unfold voice_settings. rewrite Hboost. reflexivity.
Qed.

(** A record without remote calls has no request to check. *)
Lemma no_calls_speaker_boost (tr : list event) :
  clients_used tr = [] -> Forall sends_speaker_boost tr.
Proof.
  induction tr as [|ev tr IH]; [constructor|].
  destruct ev as [k o|c kw|c kw]; try discriminate.
  intros Hused. constructor; [exact I|apply IH; exact Hused].
Qed.

(** Resuming the loop touches neither the adapter nor the vendor. *)
Lemma tts_loop_effect (audio_stream : vstream) :
  forall (s s1 : t * world) (r : res (option pyval)) (g1 : generator),
    next (GenLoop audio_stream) s = (r, g1, s1) ->
    fst s1 = fst s /\ trace (snd s1) = trace (snd s).
Proof.
  induction audio_stream as [|item rest IH|e]; intros s s1 r g1.
  - rewrite tts_next_end. intros Hn; inversion Hn; auto.
  - rewrite tts_next_item. destruct (is_audio item); [|apply IH].
    intros Hn; inversion Hn; auto.
  - rewrite tts_next_raise.
    destruct (is_StopIteration _); [intros Hn; inversion Hn; auto|].
    destruct (logged_and_raised_effect (A := option pyval)
                "ElevenLabs TTS synthesis failed: " e s) as (w2 & Heq & _ & Htr & _).
    rewrite Heq. unfold stopped. cbn [fst snd]. intros Hn; inversion Hn; auto.
Qed.

(** One [next] keeps the key and the flag, follows the client discipline,
    and with the flag on every request it makes carries it. *)
Lemma tts_next_effect (g g1 : generator) (self self1 : t) (w w1 : world)
    (r : res (option pyval)) :
  next g (self, w) = (r, g1, (self1, w1)) ->
  api_key self1 = api_key self
  /\ use_speaker_boost self1 = use_speaker_boost self
  /\ exists tr, trace w1 = (trace w ++ tr)%list
       /\ client_step (api_key self) (_client self) (_client self1) tr
       /\ (use_speaker_boost self = true -> Forall sends_speaker_boost tr).
Proof.
  intros Hn. destruct g as [text voice|audio_stream|].
  - change (GenStart text voice) with (synthesize text voice) in Hn.
    destruct (tts_get_client_cases self w)
      as [(c & Hcached & Hc) | [(Hcached & c & w0 & Hc & _ & tr & Htr & Hcons & Hused)
                                | (Hcached & e & w0 & Hc & tr & Htr & Hcons & Hused)]].
    + rewrite (tts_next_start _ _ _ _ _ _ _ Hc) in Hn. cbv zeta in Hn.
      assert (Hend : self1 = self
                     /\ trace w1 = (trace w ++ [EvStream c (stream_kwargs self text voice)])%list).
      { destruct (text_to_speech_stream _ _ _) as [[audio_stream|e] v].
        - apply tts_loop_effect in Hn. cbn [fst snd trace] in Hn. exact Hn.
        - destruct (logged_and_raised_effect (A := option pyval)
                      "ElevenLabs TTS synthesis failed: " e
                      (self, World v (logged w)
                               (trace w ++ [EvStream c (stream_kwargs self text voice)])))
            as (w2 & Heq & _ & Htr & _).
          rewrite Heq in Hn. unfold stopped in Hn. cbn [fst snd] in Hn.
          inversion Hn; subst. auto. }
      destruct Hend as [-> Htr]. split; [reflexivity|]. split; [reflexivity|].
      eexists. split; [exact Htr|]. split.
      * unfold client_step. rewrite Hcached. repeat split; repeat constructor.
      * intros Hboost. constructor; [|constructor].
        apply stream_kwargs_speaker_boost; assumption.
    + rewrite (tts_next_start _ _ _ _ _ _ _ Hc) in Hn. cbv zeta in Hn.
      assert (Hend : self1 = with_client self c
                     /\ trace w1 = (trace w0 ++ [EvStream c
                          (stream_kwargs (with_client self c) text voice)])%list).
      { destruct (text_to_speech_stream _ _ _) as [[audio_stream|e] v].
        - apply tts_loop_effect in Hn. cbn [fst snd trace] in Hn. exact Hn.
        - destruct (logged_and_raised_effect (A := option pyval)
                      "ElevenLabs TTS synthesis failed: " e
                      (with_client self c,
                       World v (logged w0)
                         (trace w0 ++ [EvStream c
                            (stream_kwargs (with_client self c) text voice)])))
            as (w2 & Heq & _ & Htr2 & _).
          rewrite Heq in Hn. unfold stopped in Hn. cbn [fst snd] in Hn.
          inversion Hn; subst. auto. }
      destruct Hend as [-> Htr1]. split; [reflexivity|]. split; [reflexivity|].
      rewrite Htr1, Htr, <- app_assoc. eexists. split; [reflexivity|]. split.
      * unfold client_step. rewrite Hcached. right. exists c.
        rewrite constructions_app, clients_used_app, Hcons, Hused.
        repeat split; repeat constructor.
      * intros Hboost. apply Forall_app. split.
        -- apply no_calls_speaker_boost; assumption.
        -- constructor; [|constructor].
           apply stream_kwargs_speaker_boost; assumption.
    + rewrite (tts_next_no_client _ _ _ _ _ _ Hc) in Hn. inversion Hn; subst.
      split; [reflexivity|]. split; [reflexivity|].
      exists tr. split; [exact Htr|]. split.
      * unfold client_step. rewrite Hcached. left. auto.
      * intros _. apply no_calls_speaker_boost; assumption.
  - apply tts_loop_effect in Hn. cbn [fst snd] in Hn. destruct Hn as [-> Htr].
    split; [reflexivity|]. split; [reflexivity|].
    exists []. rewrite app_nil_r. split; [exact Htr|].
    split; [apply client_step_nil|constructor].
  - inversion Hn; subst. split; [reflexivity|]. split; [reflexivity|].
    exists []. rewrite app_nil_r. split; [reflexivity|].
    split; [apply client_step_nil|constructor].
Qed.

(** The same for any call a host can make, and so for any sequence. *)
Lemma tts_step_effect (call : tts_call) (gens gens1 : list generator)
    (self self1 : t) (w w1 : world) :
  tts_step call (gens, (self, w)) = (gens1, (self1, w1)) ->
  api_key self1 = api_key self
  /\ use_speaker_boost self1 = use_speaker_boost self
  /\ exists tr, trace w1 = (trace w ++ tr)%list
       /\ client_step (api_key self) (_client self) (_client self1) tr
       /\ (use_speaker_boost self = true -> Forall sends_speaker_boost tr).
Proof.
  assert (Hnil : forall s : t, api_key s = api_key s
            /\ use_speaker_boost s = use_speaker_boost s
            /\ exists tr, trace w = (trace w ++ tr)%list
                 /\ client_step (api_key s) (_client s) (_client s) tr
                 /\ (use_speaker_boost s = true -> Forall sends_speaker_boost tr)).
  { intros s. split; [reflexivity|]. split; [reflexivity|].
    exists []. rewrite app_nil_r. split; [reflexivity|].
    split; [apply client_step_nil|constructor]. }
  unfold tts_step. destruct call as [text voice|i].
  - intros Heq; inversion Heq; subst. apply Hnil.
  - destruct (gens !! i) as [g|]; [|intros Heq; inversion Heq; subst; apply Hnil].
    destruct (next g (self, w)) as [[r g1] [self2 w2]] eqn:Hn.
    intros Heq; inversion Heq; subst. eapply tts_next_effect; eassumption.
Qed.

Lemma tts_run_effect (calls : list tts_call) :
  forall (gens gens1 : list generator) (self self1 : t) (w w1 : world),
    tts_run calls (gens, (self, w)) = (gens1, (self1, w1)) ->
    one_client (api_key self) (_client self) (trace w) ->
    api_key self1 = api_key self
    /\ use_speaker_boost self1 = use_speaker_boost self
    /\ one_client (api_key self) (_client self1) (trace w1)
    /\ (use_speaker_boost self = true -> Forall sends_speaker_boost (trace w) ->
        Forall sends_speaker_boost (trace w1)).
Proof.
  induction calls as [|call calls IH]; intros gens gens1 self self1 w w1 Hrun Hone.
  - inversion Hrun; subst. auto.
  - cbn [tts_run fold_left] in Hrun.
    destruct (tts_step call (gens, (self, w))) as [gens2 [self2 w2]] eqn:Hstep.
    apply tts_step_effect in Hstep as (Hkey & Hboost & tr & Htr & Hcs & Hsb).
    apply IH in Hrun as (Hkey1 & Hboost1 & Hone1 & Hsb1).
    + rewrite Hkey in Hkey1, Hone1. rewrite Hboost in Hboost1.
      repeat split; try assumption.
      intros Hb Hall. apply Hsb1; [congruence|]. rewrite Htr.
      apply Forall_app; auto.
    + rewrite Hkey, Htr. eapply one_client_step; eassumption.
Qed.

End SynthesisDiscipline.

Section TranscriptionDiscipline.
Context `{VendorSDK}.

Lemma transcribe_all_effect (audios : list AudioData) :
  forall (self self1 : ElevenLabsSTTModel.t) (w w1 : world) (results : list (res string)),
    transcribe_all audios (self, w) = (results, (self1, w1)) ->
    one_client (ElevenLabsSTTModel.api_key self) (ElevenLabsSTTModel._client self)
      (trace w) ->
    ElevenLabsSTTModel.api_key self1 = ElevenLabsSTTModel.api_key self
    /\ one_client (ElevenLabsSTTModel.api_key self) (ElevenLabsSTTModel._client self1)
         (trace w1).
Proof.
  induction audios as [|audio audios IH]; intros self self1 w w1 results Hrun Hone.
  - inversion Hrun; subst. auto.
  - cbn [transcribe_all] in Hrun.
    destruct (ElevenLabsSTTModel.transcribe audio (self, w)) as [r [self2 w2]] eqn:Hstep.
    destruct (transcribe_all audios (self2, w2)) as [rs [self3 w3]] eqn:Hrest.
    inversion Hrun; subst.
    apply stt_transcribe_effect in Hstep as (Hkey & tr & Htr & Hcs).
    apply IH in Hrest as (Hkey1 & Hone1).
    + rewrite Hkey in Hkey1, Hone1. auto.
    + rewrite Hkey, Htr. eapply one_client_step; eassumption.
Qed.

End TranscriptionDiscipline.

(** ** Claims about [create_model] *)

Section CreateModelClaims.
Context `{PyRuntime} `{VendorSDK}.

Import ElevenLabsPlugin.

(** C1.  With the API key setting absent or empty, [create_model] for either
    declared provider raises [ValueError] with the message
    "<provider label>: No API key provided", and the world it returns is the
    one it was given: nothing was constructed, called or logged. *)
Theorem create_model_without_api_key (provider_id : string)
    (settings : gmap string pyval) (w : world) :
  provider_id = "elevenlabs-stt" \/ provider_id = "elevenlabs-tts" ->
  settings !! "elevenlabs_api_key" = None
  \/ settings !! "elevenlabs_api_key" = Some (PyStr "") ->
  exists p : ModelProviderDefinition,
    In p model_providers /\ id p = provider_id
    /\ create_model provider_id settings w
       = (Raise (Exn ValueError (label p ++ ": No API key provided")), w).
Proof.
  intros Hid Hkey.
  assert (Hfalsy : negb (truthy (dict_get settings "elevenlabs_api_key" (PyStr ""))) = true).
  { unfold dict_get. destruct Hkey as [-> | ->]; reflexivity. }
  destruct Hid as [-> | ->].
  - eexists. split; [left; reflexivity|]. split; [reflexivity|].
    rewrite create_model_stt. cbv zeta. rewrite Hfalsy. reflexivity.
  - eexists. split; [right; left; reflexivity|]. split; [reflexivity|].
    rewrite create_model_tts. cbv zeta. rewrite Hfalsy. reflexivity.
Qed.

(** C7.  For a provider id that is not one of the declared ids,
    [create_model] raises [ValueError] with the message
    "Unknown ElevenLabs provider: <provider_id>"; no adapter is returned and
    the world is untouched. *)
Theorem create_model_unknown_provider (provider_id : string)
    (settings : gmap string pyval) (w : world) :
  ~ In provider_id (map id model_providers) ->
  create_model provider_id settings w
  = (Raise (Exn ValueError ("Unknown ElevenLabs provider: " ++ provider_id)), w).
Proof.
  intros Hid. apply create_model_other; intros ->; apply Hid; simpl; tauto.
Qed.

(** C2, as the code has it.  With a truthy API key and the three shaping
    settings accepted by [float], [create_model] for the text-to-speech
    provider returns a fresh adapter holding the key, the model id (default
    [eleven_flash_v2_5]) and the three coerced numbers (defaults 0.5, 0.75
    and 0.0), with speaker boost on.  The voice id setting is not read:
    changing it changes nothing. *)
Theorem create_model_tts_from_settings (settings : gmap string pyval) (w : world)
    (k : pyval) (st sb sy : float) :
  settings !! "elevenlabs_api_key" = Some k -> truthy k = true ->
  py_float (dict_get settings "elevenlabs_stability" (PyFloat 0.5)) = Ok st ->
  py_float (dict_get settings "elevenlabs_similarity_boost" (PyFloat 0.75)) = Ok sb ->
  py_float (dict_get settings "elevenlabs_style" (PyFloat 0)) = Ok sy ->
  create_model "elevenlabs-tts" settings w
  = (Ok (TTS {| ElevenLabsTTSModel.api_key := k;
                ElevenLabsTTSModel.model_id :=
                  dict_get settings "elevenlabs_model_id" (PyStr "eleven_flash_v2_5");
                ElevenLabsTTSModel.stability := st;
                ElevenLabsTTSModel.similarity_boost := sb;
                ElevenLabsTTSModel.style := sy;
                ElevenLabsTTSModel.use_speaker_boost := true;
                ElevenLabsTTSModel._client := None |}), w)
  /\ (settings !! "elevenlabs_stability" = None -> st = 0.5%float)
  /\ (settings !! "elevenlabs_similarity_boost" = None -> sb = 0.75%float)
  /\ (settings !! "elevenlabs_style" = None -> sy = 0%float)
  /\ (forall f, settings !! "elevenlabs_stability" = Some (PyFloat f) -> st = f)
  /\ (forall f, settings !! "elevenlabs_similarity_boost" = Some (PyFloat f) -> sb = f)
  /\ (forall f, settings !! "elevenlabs_style" = Some (PyFloat f) -> sy = f)
  /\ forall v : pyval,
       create_model "elevenlabs-tts" (<["elevenlabs_voice_id" := v]> settings) w
       = create_model "elevenlabs-tts" settings w.
Proof.
  intros Hk Htruthy Hst Hsb Hsy. split.
  { rewrite create_model_tts. cbv zeta. rewrite Hst, Hsb, Hsy.
    unfold dict_get at 1 2. rewrite Hk, Htruthy. reflexivity. }
  unfold dict_get in Hst, Hsb, Hsy.
  repeat split.
  - intros Hnone. rewrite Hnone in Hst. inversion Hst. reflexivity.
  - intros Hnone. rewrite Hnone in Hsb. inversion Hsb. reflexivity.
  - intros Hnone. rewrite Hnone in Hsy. inversion Hsy. reflexivity.
  - intros f Hf. rewrite Hf in Hst. inversion Hst. reflexivity.
  - intros f Hf. rewrite Hf in Hsb. inversion Hsb. reflexivity.
  - intros f Hf. rewrite Hf in Hsy. inversion Hsy. reflexivity.
  - intros v. apply create_model_tts_reads.
    simpl. intros [Heq|[Heq|[Heq|[Heq|[Heq|[]]]]]]; discriminate Heq.
Qed.

End CreateModelClaims.

(** ** Claims about [transcribe] *)

Section TranscribeClaims.
Context `{PyRuntime} `{VendorSDK}.

Import ElevenLabsPlugin ElevenLabsSTTModel.

Lemma transcribe_kwargs_lookup (self : t) (audio_file : pyval) :
  transcribe_kwargs self audio_file !! "file" = Some audio_file
  /\ transcribe_kwargs self audio_file !! "model_id" = Some (model_id self)
  /\ transcribe_kwargs self audio_file !! "language_code"
     = (if truthy (language_code self) then Some (language_code self) else None).
Proof.
  unfold transcribe_kwargs. destruct (truthy (language_code self));
    repeat split; reflexivity.
Qed.

(** C8.  With a truthy API key, [create_model] for the speech-to-text
    provider returns a fresh adapter whose model id is the setting (default
    [scribe_v1]) and whose language code is the setting when that is truthy
    and [None] otherwise, so an empty string becomes [None].  Every
    [transcribe] on such an adapter that gets its client and its audio calls
    the endpoint once, with the file, with the model id, and with the
    language code exactly when the setting is truthy. *)
Theorem stt_language_code_passed (settings : gmap string pyval) (w : world) (k : pyval) :
  settings !! "elevenlabs_api_key" = Some k -> truthy k = true ->
  let language := dict_get settings "elevenlabs_stt_language" (PyStr "") in
  exists m : t,
    create_model "elevenlabs-stt" settings w = (Ok (STT m), w)
    /\ api_key m = k /\ _client m = None
    /\ model_id m = dict_get settings "elevenlabs_stt_model_id" (PyStr "scribe_v1")
    /\ language_code m = (if truthy language then language else PyNone)
    /\ (language = PyStr "" -> language_code m = PyNone)
    /\ forall (audio : AudioData) (self self1 : t) (w0 w1 : world) (c : handle)
         (wav_data : bytes),
         model_id self = model_id m -> language_code self = language_code m ->
         _get_client (self, w0) = (Ok c, (self1, w1)) ->
         get_wav_data audio 16000 2 = Ok wav_data ->
         exists (kwargs : gmap string pyval) r s2,
           transcribe audio (self, w0) = (r, s2)
           /\ trace (snd s2) = (trace w1 ++ [EvConvert c kwargs])%list
           /\ kwargs !! "file" = Some (PyBytesIO "audio.wav" wav_data)
           /\ kwargs !! "model_id" = Some (model_id m)
           /\ kwargs !! "language_code"
              = (if truthy language then Some language else None).
Proof.
  intros Hk Htruthy language.
  eexists. split.
  { rewrite create_model_stt. cbv zeta. unfold dict_get at 1 2.
    rewrite Hk, Htruthy. reflexivity. }
  cbn [api_key _client model_id language_code __init__ default from_option Datatypes.id].
  fold language. unfold py_or.
  split; [reflexivity|]. split; [reflexivity|]. split; [reflexivity|].
  split; [reflexivity|]. split; [intros ->; reflexivity|].
  intros audio self self1 w0 w1 c wav_data Hmodel Hlang Hc Hwav.
  destruct (stt_get_client_ok _ _ _ _ _ Hc) as (_ & _ & Hmodel1 & Hlang1).
  pose proof (transcribe_kwargs_lookup self1 (PyBytesIO "audio.wav" wav_data))
    as (Hfile & Hmid & Hlc).
  rewrite Hmodel1, Hmodel in Hmid. rewrite Hlang1, Hlang in Hlc.
  assert (Hlc' : transcribe_kwargs self1 (PyBytesIO "audio.wav" wav_data) !! "language_code"
                 = if truthy language then Some language else None).
  { rewrite Hlc. destruct (truthy language) eqn:Hl; [rewrite Hl|]; reflexivity. }
  exists (transcribe_kwargs self1 (PyBytesIO "audio.wav" wav_data)).
  rewrite (stt_transcribe_run _ _ _ _ _ _ Hc), Hwav. cbv zeta.
  destruct (speech_to_text_convert _ _ _) as [[result|e] v].
  - eexists _, _. split; [reflexivity|]. repeat split; assumption.
  - unfold logged_and_raised. destruct (is_Exception _);
      (eexists _, _; split; [reflexivity|]; repeat split; assumption).
Qed.

(** C4.  When the client is at hand, the audio renders and the endpoint
    answers, [transcribe] returns normally: the empty string when the answer
    has no text or an empty one, and otherwise the text without the
    whitespace at its two ends.  The text with blanks around "hello world"
    gives "hello world". *)
Theorem transcribe_strips_text (audio : AudioData) (self self1 : t) (w w1 : world)
    (c : handle) (wav_data : bytes) (result : stt_response) (v : vstate) :
  _get_client (self, w) = (Ok c, (self1, w1)) ->
  get_wav_data audio 16000 2 = Ok wav_data ->
  speech_to_text_convert c (transcribe_kwargs self1 (PyBytesIO "audio.wav" wav_data))
    (vendor w1) = (Ok result, v) ->
  exists (out : string) (s2 : t * world),
    transcribe audio (self, w) = (Ok out, s2)
    /\ logged (snd s2) = logged w1
    /\ match text result with
       | None => out = ""
       | Some s => out = strip s /\ stripped_of s out /\ (s = "" -> out = "")
       end
    /\ (text result = Some "  hello world  " -> out = "hello world").
Proof.
  intros Hc Hwav Hconvert.
  rewrite (stt_transcribe_run _ _ _ _ _ _ Hc), Hwav. cbv zeta. rewrite Hconvert.
  eexists _, _. split; [reflexivity|]. split; [reflexivity|].
  unfold transcribed_text. split.
  - destruct (text result) as [s|]; [|reflexivity].
    destruct (String.eqb_spec s "") as [-> | Hs].
    + repeat split. apply (strip_stripped_of "").
    + assert (Ht : truthy (PyStr s) = true).
      { cbn [truthy]. apply String.eqb_neq in Hs. rewrite Hs. reflexivity. }
      rewrite Ht. split; [reflexivity|]. split; [apply strip_stripped_of|].
      intros ->. congruence.
  - intros ->. reflexivity.
Qed.

End TranscribeClaims.

(** ** Claims about [synthesize] *)

Section SynthesizeClaims.
Context `{PyRuntime} `{VendorSDK}.

Import ElevenLabsPlugin ElevenLabsTTSModel.

(** C3.  When the client is at hand and the vendor's streaming call returns
    a stream that delivers [items] and closes, iterating [synthesize] ends
    normally and has yielded exactly the items that are non-empty [bytes],
    in the vendor's order.  For the stream [b"abc", b"", b"def"] these are
    [b"abc", b"def"]. *)
Theorem synthesize_yields_nonempty_chunks (text voice : string) (self self1 : t)
    (w w1 : world) (c : handle) (items : list pyval) (v : vstate) (fuel : nat) :
  _get_client (self, w) = (Ok c, (self1, w1)) ->
  text_to_speech_stream c (stream_kwargs self1 text voice) (vendor w1)
  = (Ok (stream_of items SEnd), v) ->
  length items < fuel ->
  exists s2 : t * world,
    iterate fuel (synthesize text voice) (self, w)
    = Some (List.filter is_audio items, Ok tt, GenDone, s2)
    /\ (forall chunk, is_audio chunk = true <-> exists b, chunk = PyBytes b /\ b <> [])
    /\ (items = [abc; PyBytes []; def] -> List.filter is_audio items = [abc; def]).
Proof.
  intros Hc Hstream Hfuel. eexists. split; [|split].
  - erewrite tts_iterate_next.
    + apply tts_iterate_items. exact Hfuel.
    + rewrite (tts_next_start _ _ _ _ _ _ _ Hc). cbv zeta. rewrite Hstream.
      reflexivity.
  - intros chunk. split; [apply is_audio_bytes|].
    intros (b & -> & Hb). destruct b; [contradiction|reflexivity].
  - intros ->. reflexivity.
Qed.

(** C10.  Whatever the generator, the adapter and the vendor, iterating
    [synthesize] ends, and every chunk it has received is a non-empty
    [bytes] value.  An item of the vendor stream that is not [bytes] is
    passed over: the step goes on with the rest of the stream in the same
    state, nothing yielded, raised or logged for it. *)
Theorem synthesize_yields_only_bytes (g : generator) (s : t * world) :
  (exists n, forall fuel, n <= fuel ->
     exists chunks last g1 s1,
       iterate fuel g s = Some (chunks, last, g1, s1)
       /\ Forall (fun chunk => exists b, chunk = PyBytes b /\ b <> []) chunks)
  /\ forall (item : pyval) (rest : vstream) (s0 : t * world),
       is_bytes item = false ->
       next (GenLoop (SItem item rest)) s0 = next (GenLoop rest) s0.
Proof.
  split.
  - destruct (tts_iterate_total g s) as [n Hn]. exists n. intros fuel Hfuel.
    destruct (Hn fuel Hfuel) as (chunks & last & g1 & s1 & Hrun).
    exists chunks, last, g1, s1. split; [exact Hrun|].
    apply tts_iterate_audio in Hrun.
    eapply List.Forall_impl; [|exact Hrun].
    intros chunk Hchunk. apply is_audio_bytes. exact Hchunk.
  - intros item rest s0 Hitem. rewrite tts_next_item.
    unfold is_audio. rewrite Hitem. reflexivity.
Qed.

(** C9.  A text-to-speech adapter that [create_model] returns has speaker
    boost on, and no setting outside the five that [create_model] reads can
    change what it returns.  Through any sequence of [synthesize] and [next]
    calls on that adapter the flag stays on and every streaming request sent
    carries [use_speaker_boost = True] in its voice settings.  The
    constructor called directly takes the flag as given. *)
Theorem create_model_tts_speaker_boost (settings : gmap string pyval) (w w1 : world)
    (m : t) :
  create_model "elevenlabs-tts" settings w = (Ok (TTS m), w1) ->
  use_speaker_boost m = true
  /\ (forall (k : string) (v : pyval),
        ~ In k [ "elevenlabs_api_key"; "elevenlabs_model_id"; "elevenlabs_stability";
                 "elevenlabs_similarity_boost"; "elevenlabs_style" ] ->
        create_model "elevenlabs-tts" (<[k := v]> settings) w
        = create_model "elevenlabs-tts" settings w)
  /\ (forall (calls : list tts_call) (w0 w2 : world) (gens : list generator) (m2 : t),
        trace w0 = [] ->
        tts_run calls ([], (m, w0)) = (gens, (m2, w2)) ->
        use_speaker_boost m2 = true /\ Forall sends_speaker_boost (trace w2))
  /\ forall (k : pyval) (flag : bool),
       use_speaker_boost (__init__ k None None None None (Some flag)) = flag.
Proof.
  intros Hcreate.
  assert (Hm : use_speaker_boost m = true /\ _client m = None).
  { rewrite create_model_tts in Hcreate. cbv zeta in Hcreate.
    destruct (negb _); [discriminate|].
    repeat match type of Hcreate with
           | context [py_float ?x] => destruct (py_float x); [|discriminate]
           end.
    inversion Hcreate; subst. split; reflexivity. }
  destruct Hm as [Hboost Hfresh].
  split; [exact Hboost|]. split; [intros k v; apply create_model_tts_reads|].
  split; [|reflexivity].
  intros calls w0 w2 gens m2 Htrace Hrun.
  apply tts_run_effect in Hrun as (_ & Hboost2 & _ & Hsent).
  - split; [congruence|]. apply Hsent; [exact Hboost|]. rewrite Htrace. constructor.
  - rewrite Hfresh, Htrace. split; reflexivity.
Qed.

End SynthesizeClaims.

(** ** Claims about the client and about failures *)

Section ClientClaims.
Context `{VendorSDK}.

(** C5.  On either adapter, starting with no client and over any sequence of
    calls (any [transcribe] calls; any interleaving of [synthesize] and
    [next] calls), at most one client is constructed; it is constructed with
    the adapter's API key, it is the one the adapter then holds, and every
    remote call goes through it.  With a client held, [_get_client] returns
    it and touches nothing; with none, a constructor that returns a client
    has it stored. *)
Theorem client_constructed_at_most_once :
  (forall (audios : list AudioData) (self self1 : ElevenLabsSTTModel.t) (w w1 : world)
      (results : list (res string)),
      ElevenLabsSTTModel._client self = None -> trace w = [] ->
      transcribe_all audios (self, w) = (results, (self1, w1)) ->
      length (constructions (trace w1)) <= 1
      /\ (forall k c, In (k, c) (constructions (trace w1)) ->
            k = ElevenLabsSTTModel.api_key self
            /\ ElevenLabsSTTModel._client self1 = Some c)
      /\ (forall c, In c (clients_used (trace w1)) ->
            ElevenLabsSTTModel._client self1 = Some c)
      /\ (forall c, ElevenLabsSTTModel._client self1 = Some c ->
            constructions (trace w1) = [(ElevenLabsSTTModel.api_key self, c)]))
  /\ (forall (calls : list tts_call) (self self1 : ElevenLabsTTSModel.t) (w w1 : world)
        (gens : list ElevenLabsTTSModel.generator),
        ElevenLabsTTSModel._client self = None -> trace w = [] ->
        tts_run calls ([], (self, w)) = (gens, (self1, w1)) ->
        length (constructions (trace w1)) <= 1
        /\ (forall k c, In (k, c) (constructions (trace w1)) ->
              k = ElevenLabsTTSModel.api_key self
              /\ ElevenLabsTTSModel._client self1 = Some c)
        /\ (forall c, In c (clients_used (trace w1)) ->
              ElevenLabsTTSModel._client self1 = Some c)
        /\ (forall c, ElevenLabsTTSModel._client self1 = Some c ->
              constructions (trace w1) = [(ElevenLabsTTSModel.api_key self, c)]))
  /\ (forall (self : ElevenLabsSTTModel.t) (w : world) (c : handle),
        ElevenLabsSTTModel._client self = Some c ->
        ElevenLabsSTTModel._get_client (self, w) = (Ok c, (self, w)))
  /\ (forall (self : ElevenLabsTTSModel.t) (w : world) (c : handle),
        ElevenLabsTTSModel._client self = Some c ->
        ElevenLabsTTSModel._get_client (self, w) = (Ok c, (self, w)))
  /\ (forall (self : ElevenLabsSTTModel.t) (w : world) (c : handle) (v1 v2 : vstate),
        ElevenLabsSTTModel._client self = None ->
        import_ElevenLabs (vendor w) = (Ok tt, v1) ->
        ElevenLabs (ElevenLabsSTTModel.api_key self) v1 = (Ok c, v2) ->
        ElevenLabsSTTModel._get_client (self, w)
        = (Ok c, (ElevenLabsSTTModel.with_client self c,
                  World v2 (logged w)
                    (trace w ++ [EvElevenLabs (ElevenLabsSTTModel.api_key self) (Ok c)]))))
  /\ (forall (self : ElevenLabsTTSModel.t) (w : world) (c : handle) (v1 v2 : vstate),
        ElevenLabsTTSModel._client self = None ->
        import_ElevenLabs (vendor w) = (Ok tt, v1) ->
        ElevenLabs (ElevenLabsTTSModel.api_key self) v1 = (Ok c, v2) ->
        ElevenLabsTTSModel._get_client (self, w)
        = (Ok c, (ElevenLabsTTSModel.with_client self c,
                  World v2 (logged w)
                    (trace w ++ [EvElevenLabs (ElevenLabsTTSModel.api_key self) (Ok c)])))).
Proof.
  split; [|split; [|split; [|split; [|split]]]].
  - intros audios self self1 w w1 results Hfresh Htrace Hrun.
    apply transcribe_all_effect in Hrun as [_ Hone].
    + apply one_client_facts. exact Hone.
    + rewrite Hfresh, Htrace. split; reflexivity.
  - intros calls self self1 w w1 gens Hfresh Htrace Hrun.
    apply tts_run_effect in Hrun as (_ & _ & Hone & _).
    + apply one_client_facts. exact Hone.
    + rewrite Hfresh, Htrace. split; reflexivity.
  - intros self w c Hcached. unfold ElevenLabsSTTModel._get_client. run_monad.
    rewrite Hcached. reflexivity.
  - intros self w c Hcached. unfold ElevenLabsTTSModel._get_client. run_monad.
    rewrite Hcached. reflexivity.
  - intros self w c v1 v2 Hfresh Himport Hnew.
    unfold ElevenLabsSTTModel._get_client. run_monad. rewrite Hfresh. run_monad.
    rewrite Himport. step. rewrite Hnew. reflexivity.
  - intros self w c v1 v2 Hfresh Himport Hnew.
    unfold ElevenLabsTTSModel._get_client. run_monad. rewrite Hfresh. run_monad.
    rewrite Himport. step. rewrite Hnew. reflexivity.
Qed.

(** C6, as the code has it.  An exception [e] of class [Exception] raised
    by the audio rendering, by the transcription endpoint, by the streaming
    call or by the stream while it is iterated is logged once, as an "error"
    entry that names the operation and carries [str(e)], and then raised to
    the caller.  The caller gets [e] itself, with one exception: [synthesize]
    is a generator, so a [StopIteration] that leaves its body, after the log
    entry, reaches the caller as
    [RuntimeError("generator raised StopIteration")]; and a [StopIteration]
    raised by the stream iterator is the end of the stream, not a failure.
    The remote call was made once; chunks yielded before a stream failure
    stay yielded, the generator is finished and a further [next] calls
    nothing.  A call that returns normally had every vendor step succeed. *)
Theorem vendor_failure_logged_and_reraised :
  (forall (audio : AudioData) (self self1 : ElevenLabsSTTModel.t) (w w1 : world)
      (c : handle) (e : exn),
      ElevenLabsSTTModel._get_client (self, w) = (Ok c, (self1, w1)) ->
      get_wav_data audio 16000 2 = Raise e ->
      is_Exception (exn_class_of e) = true ->
      ElevenLabsSTTModel.transcribe audio (self, w)
      = (Raise e,
         (self1,
          World (vendor w1)
            (logged w1 ++ [("error", "ElevenLabs STT transcription failed: " ++ exn_str e)])
            (trace w1))))
  /\ (forall (audio : AudioData) (self self1 : ElevenLabsSTTModel.t) (w w1 : world)
        (c : handle) (wav_data : bytes) (e : exn) (v : vstate),
        ElevenLabsSTTModel._get_client (self, w) = (Ok c, (self1, w1)) ->
        get_wav_data audio 16000 2 = Ok wav_data ->
        speech_to_text_convert c
          (ElevenLabsSTTModel.transcribe_kwargs self1 (PyBytesIO "audio.wav" wav_data))
          (vendor w1) = (Raise e, v) ->
        is_Exception (exn_class_of e) = true ->
        ElevenLabsSTTModel.transcribe audio (self, w)
        = (Raise e,
           (self1,
            World v
              (logged w1
               ++ [("error", "ElevenLabs STT transcription failed: " ++ exn_str e)])
              (trace w1
               ++ [EvConvert c
                     (ElevenLabsSTTModel.transcribe_kwargs self1
                        (PyBytesIO "audio.wav" wav_data))]))))
  /\ (forall (text voice : string) (self self1 : ElevenLabsTTSModel.t) (w w1 : world)
        (c : handle) (e : exn) (v : vstate),
        ElevenLabsTTSModel._get_client (self, w) = (Ok c, (self1, w1)) ->
        text_to_speech_stream c (ElevenLabsTTSModel.stream_kwargs self1 text voice)
          (vendor w1) = (Raise e, v) ->
        is_Exception (exn_class_of e) = true ->
        ElevenLabsTTSModel.next (ElevenLabsTTSModel.synthesize text voice) (self, w)
        = (Raise (ElevenLabsTTSModel.generator_raised e), ElevenLabsTTSModel.GenDone,
           (self1,
            World v
              (logged w1 ++ [("error", "ElevenLabs TTS synthesis failed: " ++ exn_str e)])
              (trace w1
               ++ [EvStream c (ElevenLabsTTSModel.stream_kwargs self1 text voice)]))))
  /\ (forall (text voice : string) (self self1 : ElevenLabsTTSModel.t) (w w1 : world)
        (c : handle) (items : list pyval) (e : exn) (v : vstate) (fuel : nat),
        ElevenLabsTTSModel._get_client (self, w) = (Ok c, (self1, w1)) ->
        text_to_speech_stream c (ElevenLabsTTSModel.stream_kwargs self1 text voice)
          (vendor w1) = (Ok (stream_of items (SRaise e)), v) ->
        is_Exception (exn_class_of e) = true ->
        is_StopIteration (exn_class_of e) = false ->
        length items < fuel ->
        ElevenLabsTTSModel.iterate fuel (ElevenLabsTTSModel.synthesize text voice)
          (self, w)
        = Some (List.filter is_audio items, Raise e, ElevenLabsTTSModel.GenDone,
                (self1,
                 World v
                   (logged w1
                    ++ [("error", "ElevenLabs TTS synthesis failed: " ++ exn_str e)])
                   (trace w1
                    ++ [EvStream c (ElevenLabsTTSModel.stream_kwargs self1 text voice)]))))
  /\ (forall s : ElevenLabsTTSModel.t * world,
        ElevenLabsTTSModel.next ElevenLabsTTSModel.GenDone s
        = (Ok None, ElevenLabsTTSModel.GenDone, s))
  /\ (forall (audio : AudioData) (self self1 : ElevenLabsSTTModel.t) (w w1 : world)
        (c : handle) (wav_data : bytes) (e : exn) (v : vstate),
        ElevenLabsSTTModel._get_client (self, w) = (Ok c, (self1, w1)) ->
        get_wav_data audio 16000 2 = Ok wav_data ->
        speech_to_text_convert c
          (ElevenLabsSTTModel.transcribe_kwargs self1 (PyBytesIO "audio.wav" wav_data))
          (vendor w1) = (Raise e, v) ->
        fst (ElevenLabsSTTModel.transcribe audio (self, w)) = Raise e)
  /\ (forall (audio : AudioData) (s s2 : ElevenLabsSTTModel.t * world) (out : string),
        ElevenLabsSTTModel.transcribe audio s = (Ok out, s2) ->
        exists (c : handle) (self1 : ElevenLabsSTTModel.t) (w1 : world)
          (wav_data : bytes) (result : stt_response) (v : vstate),
          ElevenLabsSTTModel._get_client s = (Ok c, (self1, w1))
          /\ get_wav_data audio 16000 2 = Ok wav_data
          /\ speech_to_text_convert c
               (ElevenLabsSTTModel.transcribe_kwargs self1
                  (PyBytesIO "audio.wav" wav_data))
               (vendor w1) = (Ok result, v)
          /\ out = ElevenLabsSTTModel.transcribed_text result)
  /\ (forall (text voice : string) (s s2 : ElevenLabsTTSModel.t * world)
        (o : option pyval) (g : ElevenLabsTTSModel.generator),
        ElevenLabsTTSModel.next (ElevenLabsTTSModel.synthesize text voice) s
        = (Ok o, g, s2) ->
        exists (c : handle) (self1 : ElevenLabsTTSModel.t) (w1 : world)
          (audio_stream : vstream) (v : vstate),
          ElevenLabsTTSModel._get_client s = (Ok c, (self1, w1))
          /\ text_to_speech_stream c (ElevenLabsTTSModel.stream_kwargs self1 text voice)
               (vendor w1) = (Ok audio_stream, v))
  /\ (forall e : exn,
        (is_StopIteration (exn_class_of e) = false ->
         ElevenLabsTTSModel.generator_raised e = e)
        /\ (is_StopIteration (exn_class_of e) = true ->
            ElevenLabsTTSModel.generator_raised e
            = Exn RuntimeError "generator raised StopIteration"))
  /\ (forall (text voice : string) (self self1 : ElevenLabsTTSModel.t) (w w1 : world)
        (c : handle) (items : list pyval) (e : exn) (v : vstate) (fuel : nat),
        ElevenLabsTTSModel._get_client (self, w) = (Ok c, (self1, w1)) ->
        text_to_speech_stream c (ElevenLabsTTSModel.stream_kwargs self1 text voice)
          (vendor w1) = (Ok (stream_of items (SRaise e)), v) ->
        is_StopIteration (exn_class_of e) = true ->
        length items < fuel ->
        ElevenLabsTTSModel.iterate fuel (ElevenLabsTTSModel.synthesize text voice)
          (self, w)
        = Some (List.filter is_audio items, Ok tt, ElevenLabsTTSModel.GenDone,
                (self1,
                 World v (logged w1)
                   (trace w1
                    ++ [EvStream c (ElevenLabsTTSModel.stream_kwargs self1 text voice)])))).
Proof.
  split; [|split; [|split; [|split; [|split; [|split; [|split; [|split; [|split]]]]]]]].
  - intros audio self self1 w w1 c e Hc Hwav He.
    rewrite (stt_transcribe_run _ _ _ _ _ _ Hc), Hwav.
    unfold logged_and_raised. rewrite He. reflexivity.
  - intros audio self self1 w w1 c wav_data e v Hc Hwav Hconvert He.
    rewrite (stt_transcribe_run _ _ _ _ _ _ Hc), Hwav. cbv zeta. rewrite Hconvert.
    unfold logged_and_raised. rewrite He. reflexivity.
  - intros text voice self self1 w w1 c e v Hc Hstream He.
    rewrite (tts_next_start _ _ _ _ _ _ _ Hc). cbv zeta. rewrite Hstream.
    rewrite stopped_logged_and_raised.
    unfold logged_and_raised. rewrite He. reflexivity.
  - intros text voice self self1 w w1 c items e v fuel Hc Hstream He Hstop Hfuel.
    pose proof (tts_next_start text voice _ _ _ _ _ Hc) as Hn.
    cbv zeta in Hn. rewrite Hstream in Hn.
    rewrite (tts_iterate_next fuel _ _ _ _ Hn).
    rewrite (tts_iterate_items_raise _ _ Hstop) by exact Hfuel.
    unfold logged_and_raised. rewrite He. reflexivity.
  - reflexivity.
  - intros audio self self1 w w1 c wav_data e v Hc Hwav Hconvert.
    rewrite (stt_transcribe_run _ _ _ _ _ _ Hc), Hwav. cbv zeta. rewrite Hconvert.
    unfold logged_and_raised. destruct (is_Exception _); reflexivity.
  - intros audio [self w] s2 out Hrun.
    destruct (ElevenLabsSTTModel._get_client (self, w)) as [[c|e] [self1 w1]] eqn:Hc.
    + rewrite (stt_transcribe_run _ _ _ _ _ _ Hc) in Hrun.
      destruct (get_wav_data audio 16000 2) as [wav_data|e].
      * cbv zeta in Hrun.
        destruct (speech_to_text_convert _ _ _) as [[result|e] v] eqn:Hconvert.
        -- inversion Hrun; subst. eexists _, _, _, _, _, _. eauto.
        -- unfold logged_and_raised in Hrun. destruct (is_Exception _); discriminate.
      * unfold logged_and_raised in Hrun. destruct (is_Exception _); discriminate.
    + rewrite (stt_transcribe_no_client _ _ _ _ _ Hc) in Hrun. discriminate.
  - intros text voice [self w] s2 o g Hn.
    destruct (ElevenLabsTTSModel._get_client (self, w)) as [[c|e] [self1 w1]] eqn:Hc.
    + rewrite (tts_next_start _ _ _ _ _ _ _ Hc) in Hn. cbv zeta in Hn.
      destruct (text_to_speech_stream _ _ _) as [[audio_stream|e] v] eqn:Hstream.
      * eexists _, _, _, _, _. eauto.
      * rewrite stopped_logged_and_raised in Hn. discriminate.
    + rewrite (tts_next_no_client _ _ _ _ _ _ Hc) in Hn. discriminate.
  - intros e. split;
      [apply generator_raised_other
      |apply generator_raised_stop].
  - intros text voice self self1 w w1 c items e v fuel Hc Hstream Hstop Hfuel.
    pose proof (tts_next_start text voice _ _ _ _ _ Hc) as Hn.
    cbv zeta in Hn. rewrite Hstream in Hn.
    rewrite (tts_iterate_next fuel _ _ _ _ Hn).
    rewrite (tts_iterate_items_stop _ _ Hstop) by exact Hfuel. reflexivity.
Qed.

End ClientClaims.

(** ** The statements at concrete inputs *)

Lemma create_model_without_api_key_witness :
  exists p : ElevenLabsPlugin.ModelProviderDefinition,
    In p ElevenLabsPlugin.model_providers
    /\ ElevenLabsPlugin.id p = "elevenlabs-stt"
    /\ @ElevenLabsPlugin.create_model scripted_runtime demo_vendor "elevenlabs-stt" ∅
         (fresh_world demo_vendor 0)
       = (Raise (Exn ValueError (ElevenLabsPlugin.label p ++ ": No API key provided")),
          fresh_world demo_vendor 0).
Proof.
  apply (@create_model_without_api_key scripted_runtime demo_vendor);
    left; reflexivity.
Defined.

Lemma create_model_unknown_provider_witness :
  @ElevenLabsPlugin.create_model scripted_runtime demo_vendor "openai-tts" demo_settings
    (fresh_world demo_vendor 0)
  = (Raise (Exn ValueError "Unknown ElevenLabs provider: openai-tts"),
     fresh_world demo_vendor 0).
Proof.
  apply (@create_model_unknown_provider scripted_runtime demo_vendor).
  simpl. intros [Heq|[Heq|[]]]; discriminate Heq.
Defined.

Lemma create_model_tts_from_settings_witness :
  @ElevenLabsPlugin.create_model scripted_runtime demo_vendor "elevenlabs-tts"
    demo_settings (fresh_world demo_vendor 0)
  = (Ok (ElevenLabsPlugin.TTS
           {| ElevenLabsTTSModel.api_key := PyStr "sk";
              ElevenLabsTTSModel.model_id := PyStr "eleven_flash_v2_5";
              ElevenLabsTTSModel.stability := 0.25;
              ElevenLabsTTSModel.similarity_boost := 0.75;
              ElevenLabsTTSModel.style := 0;
              ElevenLabsTTSModel.use_speaker_boost := true;
              ElevenLabsTTSModel._client := None |}),
     fresh_world demo_vendor 0).
Proof.
  apply (@create_model_tts_from_settings scripted_runtime demo_vendor demo_settings
           (fresh_world demo_vendor 0) (PyStr "sk") 0.25 0.75 0);
    reflexivity.
Defined.

(** The voice id setting does not reach the adapter: two settings that
    differ in it alone give the same adapter, and the voice a request names
    is the one passed to [synthesize]. *)
Lemma create_model_tts_ignores_voice_id :
  dict_get voice_a_settings "elevenlabs_voice_id" (PyStr "JBFqnCBsd6RMkjVDRZzb")
  = PyStr "voice-a"
  /\ dict_get voice_b_settings "elevenlabs_voice_id" (PyStr "JBFqnCBsd6RMkjVDRZzb")
     = PyStr "voice-b"
  /\ @ElevenLabsPlugin.create_model scripted_runtime demo_vendor "elevenlabs-tts"
       voice_a_settings (fresh_world demo_vendor 0)
     = (Ok (ElevenLabsPlugin.TTS demo_tts), fresh_world demo_vendor 0)
  /\ @ElevenLabsPlugin.create_model scripted_runtime demo_vendor "elevenlabs-tts"
       voice_b_settings (fresh_world demo_vendor 0)
     = (Ok (ElevenLabsPlugin.TTS demo_tts), fresh_world demo_vendor 0)
  /\ ElevenLabsTTSModel.stream_kwargs demo_tts "hello" "voice-c" !! "voice_id"
     = Some (Val (PyStr "voice-c")).
Proof. repeat split; reflexivity. Qed.

Lemma stt_language_code_passed_witness :
  exists m : ElevenLabsSTTModel.t,
    @ElevenLabsPlugin.create_model scripted_runtime demo_vendor "elevenlabs-stt"
      demo_settings (fresh_world demo_vendor 0)
    = (Ok (ElevenLabsPlugin.STT m), fresh_world demo_vendor 0)
    /\ ElevenLabsSTTModel.model_id m = PyStr "scribe_v1"
    /\ ElevenLabsSTTModel.language_code m = PyStr "en".
Proof.
  destruct (@stt_language_code_passed scripted_runtime demo_vendor demo_settings
              (fresh_world demo_vendor 0) (PyStr "sk") eq_refl eq_refl)
    as (m & Hcreate & _ & _ & Hmodel & Hlanguage & _).
  exists m. split; [exact Hcreate|]. split; [exact Hmodel|exact Hlanguage].
Defined.

Lemma transcribe_strips_text_witness :
  exists (out : string) (s2 : ElevenLabsSTTModel.t * @world demo_vendor),
    @ElevenLabsSTTModel.transcribe demo_vendor silence (demo_stt, fresh_world demo_vendor 0)
    = (Ok out, s2)
    /\ out = "hello world".
Proof.
  destruct (@transcribe_strips_text demo_vendor silence demo_stt
              (ElevenLabsSTTModel.with_client demo_stt 7)
              (fresh_world demo_vendor 0)
              (World (2 : @vstate demo_vendor) [] [EvElevenLabs (PyStr "sk") (Ok 7)])
              7 [] {| text := Some "  hello world  " |} (3 : @vstate demo_vendor)
              eq_refl eq_refl eq_refl)
    as (out & s2 & Hrun & _ & _ & Hhello).
  exists out, s2. split; [exact Hrun|]. apply Hhello. reflexivity.
Defined.

Lemma synthesize_yields_nonempty_chunks_witness :
  exists s2 : ElevenLabsTTSModel.t * @world demo_vendor,
    @ElevenLabsTTSModel.iterate demo_vendor 4
      (ElevenLabsTTSModel.synthesize "hello" "voice-c")
      (demo_tts, fresh_world demo_vendor 0)
    = Some ([abc; def], Ok tt, ElevenLabsTTSModel.GenDone, s2).
Proof.
  destruct (@synthesize_yields_nonempty_chunks demo_vendor "hello" "voice-c" demo_tts
              (ElevenLabsTTSModel.with_client demo_tts 7)
              (fresh_world demo_vendor 0)
              (World (2 : @vstate demo_vendor) [] [EvElevenLabs (PyStr "sk") (Ok 7)])
              7 [abc; PyBytes []; def] (3 : @vstate demo_vendor) 4
              eq_refl eq_refl (le_n 4))
    as (s2 & Hrun & _).
  exists s2. exact Hrun.
Defined.

(** A stream with a chunk, a [None] and then a failure: the chunk is
    received, the [None] is passed over, the failure is logged and raised. *)
Example synthesize_skips_none :
  @ElevenLabsTTSModel.iterate failing_vendor 4
    (ElevenLabsTTSModel.synthesize "hello" "voice-c")
    (demo_tts, fresh_world failing_vendor 0)
  = Some ([abc], Raise connection_reset, ElevenLabsTTSModel.GenDone,
          (ElevenLabsTTSModel.with_client demo_tts 7,
           World (3 : @vstate failing_vendor)
             [("error", "ElevenLabs TTS synthesis failed: connection reset")]
             [EvElevenLabs (PyStr "sk") (Ok 7);
              EvStream 7
                (ElevenLabsTTSModel.stream_kwargs
                   (ElevenLabsTTSModel.with_client demo_tts 7) "hello" "voice-c")])).
Proof. reflexivity. Qed.

Lemma create_model_tts_speaker_boost_witness :
  let m := {| ElevenLabsTTSModel.api_key := PyStr "sk";
              ElevenLabsTTSModel.model_id := PyStr "eleven_flash_v2_5";
              ElevenLabsTTSModel.stability := 0.25;
              ElevenLabsTTSModel.similarity_boost := 0.75;
              ElevenLabsTTSModel.style := 0;
              ElevenLabsTTSModel.use_speaker_boost := true;
              ElevenLabsTTSModel._client := None |} in
  let run := @tts_run demo_vendor [CallSynthesize "hello" "voice-c"; CallNext 0]
               ([], (m, fresh_world demo_vendor 0)) in
  ElevenLabsTTSModel.use_speaker_boost (fst (snd run)) = true
  /\ Forall sends_speaker_boost (trace (snd (snd run)))
  /\ length (clients_used (trace (snd (snd run)))) = 1.
Proof.
  intros m run.
  destruct (@create_model_tts_speaker_boost scripted_runtime demo_vendor demo_settings
              (fresh_world demo_vendor 0) (fresh_world demo_vendor 0) m eq_refl)
    as (_ & _ & Hrun & _).
  destruct (Hrun [CallSynthesize "hello" "voice-c"; CallNext 0]
              (fresh_world demo_vendor 0) (snd (snd run)) (fst run) (fst (snd run))
              eq_refl eq_refl) as [Hflag Hsent].
  split; [exact Hflag|]. split; [exact Hsent|reflexivity].
Defined.

Lemma client_constructed_at_most_once_witness :
  let stt_run := @transcribe_all demo_vendor [silence; silence; silence]
                   (demo_stt, fresh_world demo_vendor 0) in
  let tts_calls := [CallSynthesize "one" "voice-c"; CallSynthesize "two" "voice-c";
                    CallNext 1; CallNext 0; CallNext 0; CallNext 1] in
  let tts_end := @tts_run demo_vendor tts_calls ([], (demo_tts, fresh_world demo_vendor 0)) in
  (length (constructions (trace (snd (snd stt_run)))) <= 1
   /\ clients_used (trace (snd (snd stt_run))) = [7; 7; 7])
  /\ (length (constructions (trace (snd (snd tts_end)))) <= 1
      /\ clients_used (trace (snd (snd tts_end))) = [7; 7]).
Proof.
  intros stt_run tts_calls tts_end.
  destruct (@client_constructed_at_most_once demo_vendor) as (Hstt & Htts & _).
  split.
  - split; [|reflexivity].
    apply (Hstt [silence; silence; silence] demo_stt (fst (snd stt_run))
             (fresh_world demo_vendor 0) (snd (snd stt_run)) (fst stt_run)
             eq_refl eq_refl eq_refl).
  - split; [|reflexivity].
    apply (Htts tts_calls demo_tts (fst (snd tts_end))
             (fresh_world demo_vendor 0) (snd (snd tts_end)) (fst tts_end)
             eq_refl eq_refl eq_refl).
Defined.

Lemma vendor_failure_logged_and_reraised_witness :
  @ElevenLabsSTTModel.transcribe failing_vendor silence
    (demo_stt, fresh_world failing_vendor 0)
  = (Raise quota_exceeded,
     (ElevenLabsSTTModel.with_client demo_stt 7,
      World (3 : @vstate failing_vendor)
        [("error", "ElevenLabs STT transcription failed: quota exceeded")]
        [EvElevenLabs (PyStr "sk") (Ok 7);
         EvConvert 7
           (ElevenLabsSTTModel.transcribe_kwargs
              (ElevenLabsSTTModel.with_client demo_stt 7) (PyBytesIO "audio.wav" []))]))
  /\ @ElevenLabsTTSModel.iterate failing_vendor 3
       (ElevenLabsTTSModel.synthesize "hello" "voice-c")
       (demo_tts, fresh_world failing_vendor 0)
     = Some ([abc], Raise connection_reset, ElevenLabsTTSModel.GenDone,
             (ElevenLabsTTSModel.with_client demo_tts 7,
              World (3 : @vstate failing_vendor)
                [("error", "ElevenLabs TTS synthesis failed: connection reset")]
                [EvElevenLabs (PyStr "sk") (Ok 7);
                 EvStream 7
                   (ElevenLabsTTSModel.stream_kwargs
                      (ElevenLabsTTSModel.with_client demo_tts 7) "hello" "voice-c")])).
Proof.
  destruct (@vendor_failure_logged_and_reraised failing_vendor)
    as (_ & Hconvert & _ & Hstream & _).
  split.
  - apply (Hconvert silence demo_stt (ElevenLabsSTTModel.with_client demo_stt 7)
             (fresh_world failing_vendor 0)
             (World (2 : @vstate failing_vendor) [] [EvElevenLabs (PyStr "sk") (Ok 7)])
             7 [] quota_exceeded (3 : @vstate failing_vendor)
             eq_refl eq_refl eq_refl eq_refl).
  - apply (Hstream "hello" "voice-c" demo_tts (ElevenLabsTTSModel.with_client demo_tts 7)
             (fresh_world failing_vendor 0)
             (World (2 : @vstate failing_vendor) [] [EvElevenLabs (PyStr "sk") (Ok 7)])
             7 [abc; PyNone] connection_reset (3 : @vstate failing_vendor) 3
             eq_refl eq_refl eq_refl eq_refl (le_n 3)).
Defined.

(** A [StopIteration] raised by the streaming call is logged and then
    reaches the caller of [next] as a [RuntimeError], not as itself. *)
Lemma synthesize_stop_iteration_not_reraised :
  @text_to_speech_stream stopping_vendor 7
    (ElevenLabsTTSModel.stream_kwargs (ElevenLabsTTSModel.with_client demo_tts 7)
       "hello" "voice-c") 2
  = (Raise stop_iteration, 3)
  /\ is_Exception (exn_class_of stop_iteration) = true
  /\ @ElevenLabsTTSModel.next stopping_vendor
       (ElevenLabsTTSModel.synthesize "hello" "voice-c")
       (demo_tts, fresh_world stopping_vendor 0)
     = (Raise (Exn RuntimeError "generator raised StopIteration"),
        ElevenLabsTTSModel.GenDone,
        (ElevenLabsTTSModel.with_client demo_tts 7,
         World (3 : @vstate stopping_vendor)
           [("error", "ElevenLabs TTS synthesis failed: no more audio")]
           [EvElevenLabs (PyStr "sk") (Ok 7);
            EvStream 7
              (ElevenLabsTTSModel.stream_kwargs
                 (ElevenLabsTTSModel.with_client demo_tts 7) "hello" "voice-c")]))
  /\ Exn RuntimeError "generator raised StopIteration" <> stop_iteration.
Proof. repeat split; try reflexivity. discriminate. Qed.

(** * Further properties of the code *)

(** ** [create_model] on any provider id and any settings *)

Lemma int_to_float_error (z : Z) (e : exn) :
  int_to_float z = Raise e -> exn_class_of e = OverflowError.
Proof.
  unfold int_to_float.
  destruct (binary_normalize 53 1024 z 0 false); intros Hr; inversion Hr; reflexivity.
Qed.

Lemma py_float_error `{PyRuntime} (v : pyval) (e : exn) :
  py_float v = Raise e ->
  exn_class_of e = ValueError \/ exn_class_of e = TypeError
  \/ exn_class_of e = OverflowError.
Proof.
  destruct v; cbn [py_float]; intros Hr.
  - inversion Hr; auto.
  - discriminate.
  - right; right. eapply int_to_float_error; eassumption.
  - discriminate.
  - left. eapply float_from_string_error; eassumption.
  - left. eapply float_from_string_error; eassumption.
  - inversion Hr; auto.
Qed.

Lemma dict_get_union (s d : gmap string pyval) (key : string) (dflt : pyval) :
  d !! key = Some dflt -> dict_get (s ∪ d) key dflt = dict_get s key dflt.
Proof.
  intros Hd. unfold dict_get. rewrite lookup_union.
  destruct (s !! key) as [v|]; rewrite Hd; reflexivity.
Qed.

Section CreateModelMore.
Context `{PyRuntime} `{VendorSDK}.

Import ElevenLabsPlugin.

(** X1.  Whatever the provider id and the settings, [create_model] leaves
    the world as it found it (no client constructed, no vendor call, no log
    entry), and an adapter it returns holds no client yet. *)
Theorem create_model_pure_and_fresh (provider_id : string)
    (settings : gmap string pyval) (w : world) :
  snd (create_model provider_id settings w) = w
  /\ match fst (create_model provider_id settings w) with
     | Ok (STT m) => ElevenLabsSTTModel._client m = None
     | Ok (TTS m) => ElevenLabsTTSModel._client m = None
     | Raise _ => True
     end.
Proof.
  destruct (String.eqb_spec provider_id "elevenlabs-stt") as [-> | Hstt].
  { rewrite create_model_stt. cbv zeta. destruct (negb _); split; reflexivity || exact I. }
  destruct (String.eqb_spec provider_id "elevenlabs-tts") as [-> | Htts].
  { rewrite create_model_tts. cbv zeta. destruct (negb _); [split; reflexivity || exact I|].
    repeat match goal with
           | |- context [py_float ?v] => destruct (py_float v)
           end; split; reflexivity || exact I. }
  rewrite create_model_other by assumption. split; reflexivity || exact I.
Qed.

(** X2.  An exception that [create_model] raises is a [ValueError], a
    [TypeError] or an [OverflowError]; for every provider id but the
    text-to-speech one it is a [ValueError]. *)
Theorem create_model_error_classes (provider_id : string)
    (settings : gmap string pyval) (w w1 : world) (e : exn) :
  create_model provider_id settings w = (Raise e, w1) ->
  (exn_class_of e = ValueError \/ exn_class_of e = TypeError
   \/ exn_class_of e = OverflowError)
  /\ (provider_id <> "elevenlabs-tts" -> exn_class_of e = ValueError).
Proof.
  destruct (String.eqb_spec provider_id "elevenlabs-stt") as [-> | Hstt].
  { rewrite create_model_stt. cbv zeta. destruct (negb _); intros Hr; inversion Hr.
    split; auto. }
  destruct (String.eqb_spec provider_id "elevenlabs-tts") as [-> | Htts].
  { rewrite create_model_tts. cbv zeta. intros Hr. split; [|congruence].
    destruct (negb _); [inversion Hr; auto|].
    repeat match type of Hr with
           | context [py_float ?v] =>
               let Hf := fresh "Hf" in
               destruct (py_float v) eqn:Hf;
               [|inversion Hr; subst; eapply py_float_error; eassumption]
           end.
    discriminate. }
  rewrite create_model_other by assumption. intros Hr; inversion Hr. split; auto.
Qed.

(** X3.  [create_model] returns an adapter only for a provider id that
    [model_providers] declares, and the adapter is of the kind declared for
    it: a speech-to-text adapter for kind "stt", a text-to-speech adapter for
    kind "tts". *)
Theorem create_model_declared_kind (provider_id : string)
    (settings : gmap string pyval) (w w1 : world) (m : model) :
  create_model provider_id settings w = (Ok m, w1) ->
  exists p : ModelProviderDefinition,
    In p model_providers /\ id p = provider_id
    /\ kind p = match m with STT _ => "stt" | TTS _ => "tts" end.
Proof.
  destruct (String.eqb_spec provider_id "elevenlabs-stt") as [-> | Hstt].
  { rewrite create_model_stt. cbv zeta. destruct (negb _); intros Hr; inversion Hr.
    eexists. split; [left; reflexivity|]. split; reflexivity. }
  destruct (String.eqb_spec provider_id "elevenlabs-tts") as [-> | Htts].
  { rewrite create_model_tts. cbv zeta. intros Hr.
    destruct (negb _); [discriminate|].
    repeat match type of Hr with
           | context [py_float ?v] => destruct (py_float v); [|discriminate]
           end.
    inversion Hr. eexists. split; [right; left; reflexivity|]. split; reflexivity. }
  rewrite create_model_other by assumption. discriminate.
Qed.

(** X4.  What [create_model] returns depends on the settings only through
    the keys it looks up for that provider id: two settings mappings that
    agree on them give the same result. *)
Theorem create_model_reads_only (provider_id : string)
    (s1 s2 : gmap string pyval) (w : world) :
  (forall k, In k (read_keys provider_id) -> s1 !! k = s2 !! k) ->
  create_model provider_id s1 w = create_model provider_id s2 w.
Proof.
  intros Hagree.
  destruct (String.eqb_spec provider_id "elevenlabs-stt") as [-> | Hstt].
  { rewrite !create_model_stt. unfold dict_get.
    rewrite (Hagree "elevenlabs_api_key"), (Hagree "elevenlabs_stt_model_id"),
      (Hagree "elevenlabs_stt_language") by (simpl; tauto).
    reflexivity. }
  destruct (String.eqb_spec provider_id "elevenlabs-tts") as [-> | Htts].
  { rewrite !create_model_tts. unfold dict_get.
    rewrite (Hagree "elevenlabs_api_key"), (Hagree "elevenlabs_model_id"),
      (Hagree "elevenlabs_stability"), (Hagree "elevenlabs_similarity_boost"),
      (Hagree "elevenlabs_style") by (simpl; tauto).
    reflexivity. }
  rewrite !create_model_other by assumption. reflexivity.
Qed.

(** X5.  For a declared provider, a host may fill in the declared defaults
    or leave the fields out: adding the schema's default for every field the
    settings mapping lacks does not change what [create_model] returns. *)
Theorem create_model_schema_defaults (p : ModelProviderDefinition)
    (settings : gmap string pyval) (w : world) :
  In p model_providers ->
  create_model (id p) (settings ∪ schema_defaults p) w
  = create_model (id p) settings w.
Proof.
  intros [<- | [<- | []]]; cbn [id].
  - rewrite !create_model_stt.
    rewrite !dict_get_union by reflexivity. reflexivity.
  - rewrite !create_model_tts.
    rewrite !dict_get_union by reflexivity. reflexivity.
Qed.

(** X6.  The defaults of [create_model] are those of the constructors: with
    a truthy API key and none of the optional settings present, the adapter
    returned is the one the constructor makes from the key alone. *)
Theorem create_model_constructor_defaults (settings : gmap string pyval) (w : world)
    (k : pyval) :
  settings !! "elevenlabs_api_key" = Some k -> truthy k = true ->
  (settings !! "elevenlabs_stt_model_id" = None ->
   settings !! "elevenlabs_stt_language" = None ->
   create_model "elevenlabs-stt" settings w
   = (Ok (STT (ElevenLabsSTTModel.__init__ k None None)), w))
  /\ (settings !! "elevenlabs_model_id" = None ->
      settings !! "elevenlabs_stability" = None ->
      settings !! "elevenlabs_similarity_boost" = None ->
      settings !! "elevenlabs_style" = None ->
      create_model "elevenlabs-tts" settings w
      = (Ok (TTS (ElevenLabsTTSModel.__init__ k None None None None None)), w)).
Proof.
  intros Hk Htruthy. split.
  - intros Hmodel Hlanguage. rewrite create_model_stt. unfold dict_get.
    rewrite Hk, Hmodel, Hlanguage. cbv zeta. rewrite Htruthy. reflexivity.
  - intros Hmodel Hst Hsb Hsy. rewrite create_model_tts. unfold dict_get.
    rewrite Hk, Hmodel, Hst, Hsb, Hsy. cbv zeta. rewrite Htruthy. reflexivity.
Qed.

(** X7.  A setting that is present with the value [None] is not replaced by
    its default.  As the API key it makes both providers raise the missing-key
    error; as a shaping number it makes [float] raise [TypeError]; as the
    model id it is stored as it is. *)
Theorem create_model_none_values (settings : gmap string pyval) (w : world) :
  (settings !! "elevenlabs_api_key" = Some PyNone ->
   create_model "elevenlabs-stt" settings w
   = (Raise (Exn ValueError "ElevenLabs STT: No API key provided"), w)
   /\ create_model "elevenlabs-tts" settings w
      = (Raise (Exn ValueError "ElevenLabs TTS: No API key provided"), w))
  /\ (forall k, settings !! "elevenlabs_api_key" = Some k -> truthy k = true ->
      settings !! "elevenlabs_stability" = Some PyNone ->
      create_model "elevenlabs-tts" settings w
      = (Raise (Exn TypeError
                  "float() argument must be a string or a real number, not 'NoneType'"),
         w))
  /\ (forall k, settings !! "elevenlabs_api_key" = Some k -> truthy k = true ->
      settings !! "elevenlabs_stt_model_id" = Some PyNone ->
      exists m, create_model "elevenlabs-stt" settings w = (Ok (STT m), w)
                /\ ElevenLabsSTTModel.model_id m = PyNone).
Proof.
  split; [|split].
  - intros Hk. rewrite create_model_stt, create_model_tts. unfold dict_get.
    rewrite Hk. split; reflexivity.
  - intros k Hk Htruthy Hst. rewrite create_model_tts. unfold dict_get.
    rewrite Hk, Hst. cbv zeta. rewrite Htruthy. reflexivity.
  - intros k Hk Htruthy Hmodel. rewrite create_model_stt. unfold dict_get.
    rewrite Hk, Hmodel. cbv zeta. rewrite Htruthy. eexists. split; reflexivity.
Qed.

End CreateModelMore.

(** ** Client construction that fails *)

Section ConstructionFailures.
Context `{VendorSDK}.

(** The import and the constructor call log nothing and make no remote
    call; when they raise, no client was constructed. *)
Lemma open_client_effect (key : pyval) (w w1 : world) (r : res handle) :
  open_client key w = (r, w1) ->
  logged w1 = logged w
  /\ clients_used (trace w1) = clients_used (trace w)
  /\ (forall e, r = Raise e -> constructions (trace w1) = constructions (trace w)).
Proof.
  unfold open_client. run_monad. destruct w as [v lg tr]. step.
  destruct (import_ElevenLabs v) as [[[]|e] v1]; step.
  - destruct (ElevenLabs key v1) as [[c|e] v2]; step;
      intros Hr; inversion Hr; subst; cbn [logged trace];
      rewrite clients_used_app, constructions_app; cbn; rewrite !app_nil_r;
      repeat split; try reflexivity; discriminate.
  - intros Hr; inversion Hr; subst. repeat split; reflexivity.
Qed.

(** [_get_client] with no client cached, by what the vendor answers. *)
Lemma stt_get_client_open (self : ElevenLabsSTTModel.t) (w : world) :
  ElevenLabsSTTModel._client self = None ->
  ElevenLabsSTTModel._get_client (self, w) =
    match open_client (ElevenLabsSTTModel.api_key self) w with
    | (Ok c, w1) => (Ok c, (ElevenLabsSTTModel.with_client self c, w1))
    | (Raise e, w1) =>
        if is_ImportError (exn_class_of e) then (Raise not_installed, (self, w1))
        else logged_and_raised "Failed to initialize ElevenLabs client: " e (self, w1)
    end.
Proof.
  intros Hfresh. unfold ElevenLabsSTTModel._get_client, open_client. run_monad.
  rewrite Hfresh. run_monad. destruct w as [v lg tr]. step.
  destruct (import_ElevenLabs v) as [[[]|e] v1]; step.
  - destruct (ElevenLabs _ v1) as [[c|e] v2]; step; [reflexivity|].
    destruct (is_ImportError _); [reflexivity|]. destruct (is_Exception _); reflexivity.
  - destruct (is_ImportError _); [reflexivity|]. destruct (is_Exception _); reflexivity.
Qed.

Lemma tts_get_client_open (self : ElevenLabsTTSModel.t) (w : world) :
  ElevenLabsTTSModel._client self = None ->
  ElevenLabsTTSModel._get_client (self, w) =
    match open_client (ElevenLabsTTSModel.api_key self) w with
    | (Ok c, w1) => (Ok c, (ElevenLabsTTSModel.with_client self c, w1))
    | (Raise e, w1) =>
        if is_ImportError (exn_class_of e) then (Raise not_installed, (self, w1))
        else logged_and_raised "Failed to initialize ElevenLabs client: " e (self, w1)
    end.
Proof.
  intros Hfresh. unfold ElevenLabsTTSModel._get_client, open_client. run_monad.
  rewrite Hfresh. run_monad. destruct w as [v lg tr]. step.
  destruct (import_ElevenLabs v) as [[[]|e] v1]; step.
  - destruct (ElevenLabs _ v1) as [[c|e] v2]; step; [reflexivity|].
    destruct (is_ImportError _); [reflexivity|]. destruct (is_Exception _); reflexivity.
  - destruct (is_ImportError _); [reflexivity|]. destruct (is_Exception _); reflexivity.
Qed.

(** X8.  When the import or the constructor raises an [ImportError] (or a
    subclass) while an adapter has no client, the call that needed the
    client raises [ImportError] with the fixed install hint in place of the
    original exception: nothing is logged, no client is cached and no remote
    call is made; a [synthesize] generator is finished by it. *)
Theorem import_error_replaced (stt : ElevenLabsSTTModel.t) (tts : ElevenLabsTTSModel.t)
    (w w1 : world) (e : exn) (audio : AudioData) (text voice : string) :
  is_ImportError (exn_class_of e) = true ->
  (ElevenLabsSTTModel._client stt = None ->
   open_client (ElevenLabsSTTModel.api_key stt) w = (Raise e, w1) ->
   ElevenLabsSTTModel.transcribe audio (stt, w) = (Raise not_installed, (stt, w1))
   /\ logged w1 = logged w
   /\ constructions (trace w1) = constructions (trace w)
   /\ clients_used (trace w1) = clients_used (trace w))
  /\ (ElevenLabsTTSModel._client tts = None ->
      open_client (ElevenLabsTTSModel.api_key tts) w = (Raise e, w1) ->
      ElevenLabsTTSModel.next (ElevenLabsTTSModel.synthesize text voice) (tts, w)
      = (Raise not_installed, ElevenLabsTTSModel.GenDone, (tts, w1))
      /\ logged w1 = logged w
      /\ constructions (trace w1) = constructions (trace w)
      /\ clients_used (trace w1) = clients_used (trace w)).
Proof.
  intros Himport. split; intros Hfresh Hopen;
    (destruct (open_client_effect _ _ _ _ Hopen) as (Hlog & Hused & Hcons);
     split; [|split; [exact Hlog|split; [apply (Hcons e); reflexivity|exact Hused]]]).
  - apply stt_transcribe_no_client.
    rewrite (stt_get_client_open _ _ Hfresh), Hopen, Himport. reflexivity.
  - assert (Hc : ElevenLabsTTSModel._get_client (tts, w)
                 = (Raise not_installed, (tts, w1))).
    { rewrite (tts_get_client_open _ _ Hfresh), Hopen, Himport. reflexivity. }
    rewrite (tts_next_no_client _ _ _ _ _ _ Hc). reflexivity.
Qed.

(** X9.  When the import or the constructor raises an exception of class
    [Exception] that is not an [ImportError], the call that needed the client
    raises after exactly one "error" log entry, "Failed to initialize
    ElevenLabs client: <str(e)>"; the adapter keeps no client, no remote call
    is made and no transcription or synthesis entry is added.  [transcribe]
    raises that same exception.  The first [next] of [synthesize] raises it
    as a generator does: the same exception, or
    [RuntimeError("generator raised StopIteration")] when it is a
    [StopIteration]. *)
Theorem client_failure_logged_once (stt : ElevenLabsSTTModel.t)
    (tts : ElevenLabsTTSModel.t) (w w1 : world) (e : exn) (audio : AudioData)
    (text voice : string) :
  is_ImportError (exn_class_of e) = false ->
  is_Exception (exn_class_of e) = true ->
  (ElevenLabsSTTModel._client stt = None ->
   open_client (ElevenLabsSTTModel.api_key stt) w = (Raise e, w1) ->
   ElevenLabsSTTModel.transcribe audio (stt, w)
   = (Raise e,
      (stt,
       World (vendor w1)
         (logged w ++ [("error", "Failed to initialize ElevenLabs client: " ++ exn_str e)])
         (trace w1)))
   /\ clients_used (trace w1) = clients_used (trace w))
  /\ (ElevenLabsTTSModel._client tts = None ->
      open_client (ElevenLabsTTSModel.api_key tts) w = (Raise e, w1) ->
      ElevenLabsTTSModel.next (ElevenLabsTTSModel.synthesize text voice) (tts, w)
      = (Raise (if is_StopIteration (exn_class_of e)
                then Exn RuntimeError "generator raised StopIteration"
                else e),
         ElevenLabsTTSModel.GenDone,
         (tts,
          World (vendor w1)
            (logged w
             ++ [("error", "Failed to initialize ElevenLabs client: " ++ exn_str e)])
            (trace w1)))
      /\ clients_used (trace w1) = clients_used (trace w)).
Proof.
  intros Himport Hexception. split; intros Hfresh Hopen;
    (destruct (open_client_effect _ _ _ _ Hopen) as (Hlog & Hused & _);
     split; [|exact Hused]).
  - apply stt_transcribe_no_client.
    rewrite (stt_get_client_open _ _ Hfresh), Hopen, Himport.
    unfold logged_and_raised. rewrite Hexception. cbn [fst snd]. rewrite Hlog.
    reflexivity.
  - assert (Hc : ElevenLabsTTSModel._get_client (tts, w)
                 = (Raise e,
                    (tts,
                     World (vendor w1)
                       (logged w
                        ++ [("error",
                             "Failed to initialize ElevenLabs client: " ++ exn_str e)])
                       (trace w1)))).
    { rewrite (tts_get_client_open _ _ Hfresh), Hopen, Himport.
      unfold logged_and_raised. rewrite Hexception. cbn [fst snd]. rewrite Hlog.
      reflexivity. }
    rewrite (tts_next_no_client _ _ _ _ _ _ Hc). reflexivity.
Qed.

(** X10.  A failed construction is not remembered: the call raises, the
    adapter is left exactly as it was, and the next call that needs the
    client asks the vendor again and caches the client the vendor then
    returns. *)
Theorem failed_construction_retried (stt : ElevenLabsSTTModel.t)
    (tts : ElevenLabsTTSModel.t) (w w1 : world) (e : exn) (audio : AudioData)
    (text voice : string) :
  (ElevenLabsSTTModel._client stt = None ->
   open_client (ElevenLabsSTTModel.api_key stt) w = (Raise e, w1) ->
   exists e1 w2,
     ElevenLabsSTTModel.transcribe audio (stt, w) = (Raise e1, (stt, w2))
     /\ vendor w2 = vendor w1 /\ trace w2 = trace w1
     /\ forall c w3,
          open_client (ElevenLabsSTTModel.api_key stt) w2 = (Ok c, w3) ->
          ElevenLabsSTTModel._get_client (stt, w2)
          = (Ok c, (ElevenLabsSTTModel.with_client stt c, w3)))
  /\ (ElevenLabsTTSModel._client tts = None ->
      open_client (ElevenLabsTTSModel.api_key tts) w = (Raise e, w1) ->
      exists e1 w2,
        ElevenLabsTTSModel.next (ElevenLabsTTSModel.synthesize text voice) (tts, w)
        = (Raise e1, ElevenLabsTTSModel.GenDone, (tts, w2))
        /\ vendor w2 = vendor w1 /\ trace w2 = trace w1
        /\ forall c w3,
             open_client (ElevenLabsTTSModel.api_key tts) w2 = (Ok c, w3) ->
             ElevenLabsTTSModel._get_client (tts, w2)
             = (Ok c, (ElevenLabsTTSModel.with_client tts c, w3))).
Proof.
  split; intros Hfresh Hopen.
  - assert (Hc : exists e1 w2,
               ElevenLabsSTTModel._get_client (stt, w) = (Raise e1, (stt, w2))
               /\ vendor w2 = vendor w1 /\ trace w2 = trace w1).
    { rewrite (stt_get_client_open _ _ Hfresh), Hopen.
      destruct (is_ImportError _); [eexists _, _; repeat split|].
      destruct (logged_and_raised_effect (A := handle)
                  "Failed to initialize ElevenLabs client: " e (stt, w1))
        as (w2 & Heq & Hv & Htr & _).
      rewrite Heq. eexists _, _. split; [reflexivity|]. split; assumption. }
    destruct Hc as (e1 & w2 & Hc & Hv & Htr). exists e1, w2.
    split; [apply stt_transcribe_no_client; exact Hc|]. split; [exact Hv|].
    split; [exact Htr|]. intros c w3 Hopen2.
    rewrite (stt_get_client_open _ _ Hfresh), Hopen2. reflexivity.
  - assert (Hc : exists e1 w2,
               ElevenLabsTTSModel._get_client (tts, w) = (Raise e1, (tts, w2))
               /\ vendor w2 = vendor w1 /\ trace w2 = trace w1).
    { rewrite (tts_get_client_open _ _ Hfresh), Hopen.
      destruct (is_ImportError _); [eexists _, _; repeat split|].
      destruct (logged_and_raised_effect (A := handle)
                  "Failed to initialize ElevenLabs client: " e (tts, w1))
        as (w2 & Heq & Hv & Htr & _).
      rewrite Heq. eexists _, _. split; [reflexivity|]. split; assumption. }
    destruct Hc as (e1 & w2 & Hc & Hv & Htr).
    exists (ElevenLabsTTSModel.generator_raised e1), w2.
    split; [apply tts_next_no_client; exact Hc|]. split; [exact Hv|].
    split; [exact Htr|]. intros c w3 Hopen2.
    rewrite (tts_get_client_open _ _ Hfresh), Hopen2. reflexivity.
Qed.

End ConstructionFailures.

(** ** What the adapters log and send *)

Section AdapterTraffic.
Context `{PyRuntime} `{VendorSDK}.

Lemma quiet_refl {A} (r : res A) (lg : list (string * string)) :
  quiet_unless_failed r lg lg.
Proof.
  exists []. rewrite app_nil_r. repeat split; [simpl; lia|constructor].
Qed.

Lemma quiet_logged_and_raised {T A} (context : string) (e : exn) (s : T * world) :
  quiet_unless_failed (fst (@logged_and_raised _ T A context e s))
    (logged (snd s)) (logged (snd (snd (@logged_and_raised _ T A context e s)))).
Proof.
  unfold logged_and_raised. destruct (is_Exception _); cbn [fst snd logged].
  - exists [("error", context ++ exn_str e)]. split; [reflexivity|].
    split; [simpl; lia|]. split; [|discriminate].
    constructor; [reflexivity|constructor].
  - apply quiet_refl.
Qed.

Lemma stt_get_client_quiet (self self1 : ElevenLabsSTTModel.t) (w w1 : world)
    (r : res handle) :
  ElevenLabsSTTModel._get_client (self, w) = (r, (self1, w1)) ->
  quiet_unless_failed r (logged w) (logged w1).
Proof.
  destruct (ElevenLabsSTTModel._client self) as [c|] eqn:Hcached.
  - destruct (stt_get_client_cases self w)
      as [(c0 & _ & Hr) | [(Hnone & _) | (Hnone & _)]]; [|congruence..].
    rewrite Hr. intros Heq; inversion Heq; subst. apply quiet_refl.
  - rewrite (stt_get_client_open _ _ Hcached).
    destruct (open_client _ w) as [[c|e] w0] eqn:Hopen;
      destruct (open_client_effect _ _ _ _ Hopen) as (Hlog & _).
    + intros Heq; inversion Heq; subst. rewrite Hlog. apply quiet_refl.
    + destruct (is_ImportError _).
      * intros Heq; inversion Heq; subst. rewrite Hlog. apply quiet_refl.
      * intros Heq. rewrite <- Hlog.
        pose proof (quiet_logged_and_raised (A := handle)
                      "Failed to initialize ElevenLabs client: " e (self, w0)) as Hq.
        rewrite Heq in Hq. exact Hq.
Qed.

Lemma tts_get_client_quiet (self self1 : ElevenLabsTTSModel.t) (w w1 : world)
    (r : res handle) :
  ElevenLabsTTSModel._get_client (self, w) = (r, (self1, w1)) ->
  quiet_unless_failed r (logged w) (logged w1).
Proof.
  destruct (ElevenLabsTTSModel._client self) as [c|] eqn:Hcached.
  - destruct (tts_get_client_cases self w)
      as [(c0 & _ & Hr) | [(Hnone & _) | (Hnone & _)]]; [|congruence..].
    rewrite Hr. intros Heq; inversion Heq; subst. apply quiet_refl.
  - rewrite (tts_get_client_open _ _ Hcached).
    destruct (open_client _ w) as [[c|e] w0] eqn:Hopen;
      destruct (open_client_effect _ _ _ _ Hopen) as (Hlog & _).
    + intros Heq; inversion Heq; subst. rewrite Hlog. apply quiet_refl.
    + destruct (is_ImportError _).
      * intros Heq; inversion Heq; subst. rewrite Hlog. apply quiet_refl.
      * intros Heq. rewrite <- Hlog.
        pose proof (quiet_logged_and_raised (A := handle)
                      "Failed to initialize ElevenLabs client: " e (self, w0)) as Hq.
        rewrite Heq in Hq. exact Hq.
Qed.

(** The rule looks at a failure only as a failure. *)
Lemma quiet_raise {A B} (e e1 : exn) (lg lg1 : list (string * string)) :
  quiet_unless_failed (@Raise A e) lg lg1 -> quiet_unless_failed (@Raise B e1) lg lg1.
Proof.
  intros (entries & Hlog & Hlen & Hall & _). exists entries.
  split; [exact Hlog|]. split; [exact Hlen|]. split; [exact Hall|discriminate].
Qed.

Lemma quiet_stopped (context : string) (e : exn) (s : ElevenLabsTTSModel.t * world)
    (r : res (option pyval)) (g1 : ElevenLabsTTSModel.generator)
    (s1 : ElevenLabsTTSModel.t * world) :
  stopped (logged_and_raised context e s) = (r, g1, s1) ->
  quiet_unless_failed r (logged (snd s)) (logged (snd s1))
  /\ g1 = ElevenLabsTTSModel.GenDone.
Proof.
  rewrite stopped_logged_and_raised.
  pose proof (quiet_logged_and_raised (A := option pyval) context e s) as Hq.
  destruct (logged_and_raised_effect (A := option pyval) context e s) as (w2 & Heq & _).
  rewrite Heq in Hq |- *. cbn [fst snd] in Hq |- *.
  intros Hn; inversion Hn; subst. split; [|reflexivity].
  eapply quiet_raise. exact Hq.
Qed.

(** Resuming the loop: the generator stays in the loop or finishes, and the
    log obeys the rule. *)
Lemma tts_loop_quiet (audio_stream : vstream) :
  forall (s s1 : ElevenLabsTTSModel.t * world) (r : res (option pyval))
    (g1 : ElevenLabsTTSModel.generator),
    ElevenLabsTTSModel.next (ElevenLabsTTSModel.GenLoop audio_stream) s = (r, g1, s1) ->
    quiet_unless_failed r (logged (snd s)) (logged (snd s1))
    /\ (forall text voice, g1 <> ElevenLabsTTSModel.GenStart text voice)
    /\ ((forall chunk, r <> Ok (Some chunk)) -> g1 = ElevenLabsTTSModel.GenDone).
Proof.
  induction audio_stream as [|item rest IH|e]; intros s s1 r g1.
  - rewrite tts_next_end. intros Hn; inversion Hn; subst.
    split; [apply quiet_refl|]. split; [discriminate|reflexivity].
  - rewrite tts_next_item. destruct (is_audio item); [|apply IH].
    intros Hn; inversion Hn; subst. split; [apply quiet_refl|].
    split; [discriminate|]. intros Hno. exfalso. apply (Hno item). reflexivity.
  - rewrite tts_next_raise. destruct (is_StopIteration _).
    + intros Hn; inversion Hn; subst.
      split; [apply quiet_refl|]. split; [discriminate|reflexivity].
    + intros Hn. apply quiet_stopped in Hn as [Hq ->].
      split; [exact Hq|]. split; [discriminate|reflexivity].
Qed.

(** X11.  A [transcribe] call, or a [next] on any [synthesize] generator,
    adds nothing to the log when it returns normally and at most one entry
    when it raises; every entry it adds has level "error". *)
Theorem calls_log_errors_only :
  (forall (audio : AudioData) (self self1 : ElevenLabsSTTModel.t) (w w1 : world)
      (r : res string),
      ElevenLabsSTTModel.transcribe audio (self, w) = (r, (self1, w1)) ->
      exists entries,
        logged w1 = (logged w ++ entries)%list /\ length entries <= 1
        /\ Forall (fun entry => fst entry = "error") entries
        /\ (forall out, r = Ok out -> entries = []))
  /\ (forall (g g1 : ElevenLabsTTSModel.generator) (self self1 : ElevenLabsTTSModel.t)
        (w w1 : world) (r : res (option pyval)),
        ElevenLabsTTSModel.next g (self, w) = (r, g1, (self1, w1)) ->
        exists entries,
          logged w1 = (logged w ++ entries)%list /\ length entries <= 1
          /\ Forall (fun entry => fst entry = "error") entries
          /\ (forall o, r = Ok o -> entries = [])).
Proof.
  split.
  - intros audio self self1 w w1 r Hrun.
    destruct (ElevenLabsSTTModel._get_client (self, w)) as [[c|e] [self0 w0]] eqn:Hc.
    + pose proof (stt_get_client_quiet _ _ _ _ _ Hc) as (entries & Hlog & _ & _ & Hnone).
      rewrite (Hnone c eq_refl), app_nil_r in Hlog. rewrite <- Hlog.
      rewrite (stt_transcribe_run _ _ _ _ _ _ Hc) in Hrun.
      destruct (get_wav_data audio 16000 2) as [wav_data|e].
      * cbv zeta in Hrun.
        destruct (speech_to_text_convert _ _ _) as [[result|e] v].
        -- inversion Hrun; subst. apply (quiet_refl (Ok (ElevenLabsSTTModel.transcribed_text result))).
        -- match type of Hrun with
           | logged_and_raised ?ctx ?e0 ?s0 = _ =>
               pose proof (quiet_logged_and_raised (A := string) ctx e0 s0) as Hq
           end.
           rewrite Hrun in Hq. exact Hq.
      * pose proof (quiet_logged_and_raised (A := string)
                      "ElevenLabs STT transcription failed: " e (self0, w0)) as Hq.
        rewrite Hrun in Hq. exact Hq.
    + rewrite (stt_transcribe_no_client _ _ _ _ _ Hc) in Hrun. inversion Hrun; subst.
      destruct (stt_get_client_quiet _ _ _ _ _ Hc) as (entries & Hlog & Hlen & Hall & _).
      exists entries. repeat split; try assumption. discriminate.
  - intros g g1 self self1 w w1 r Hn.
    destruct g as [text voice|audio_stream|].
    + change (ElevenLabsTTSModel.GenStart text voice)
        with (ElevenLabsTTSModel.synthesize text voice) in Hn.
      destruct (ElevenLabsTTSModel._get_client (self, w)) as [[c|e] [self0 w0]] eqn:Hc.
      * pose proof (tts_get_client_quiet _ _ _ _ _ Hc) as (entries & Hlog & _ & _ & Hnone).
        rewrite (Hnone c eq_refl), app_nil_r in Hlog. rewrite <- Hlog.
        rewrite (tts_next_start _ _ _ _ _ _ _ Hc) in Hn. cbv zeta in Hn.
        destruct (text_to_speech_stream _ _ _) as [[audio_stream|e] v].
        -- apply tts_loop_quiet in Hn as [Hq _]. exact Hq.
        -- apply quiet_stopped in Hn as [Hq _]. exact Hq.
      * rewrite (tts_next_no_client _ _ _ _ _ _ Hc) in Hn. inversion Hn; subst.
        destruct (tts_get_client_quiet _ _ _ _ _ Hc) as (entries & Hlog & Hlen & Hall & _).
        exists entries. repeat split; try assumption. discriminate.
    + apply tts_loop_quiet in Hn as [Hq _]. exact Hq.
    + inversion Hn; subst. apply (quiet_refl (Ok None)).
Qed.

End AdapterTraffic.

(** ** One streaming request per synthesis *)

Section Streaming.
Context `{PyRuntime} `{VendorSDK}.

Import ElevenLabsPlugin ElevenLabsTTSModel.

Lemma stream_kwargs_lookup (self : t) (text voice : string) :
  stream_kwargs self text voice !! "text" = Some (Val (PyStr text))
  /\ stream_kwargs self text voice !! "voice_id" = Some (Val (PyStr voice))
  /\ stream_kwargs self text voice !! "model_id" = Some (Val (model_id self))
  /\ stream_kwargs self text voice !! "output_format" = Some (Val (PyStr "pcm_24000"))
  /\ stream_kwargs self text voice !! "voice_settings" = Some (Dict (voice_settings self))
  /\ size (stream_kwargs self text voice) = 5.
Proof. repeat split; reflexivity. Qed.

Lemma voice_settings_lookup (self : t) :
  voice_settings self !! "stability" = Some (PyFloat (stability self))
  /\ voice_settings self !! "similarity_boost" = Some (PyFloat (similarity_boost self))
  /\ voice_settings self !! "style" = Some (PyFloat (style self))
  /\ voice_settings self !! "use_speaker_boost" = Some (PyBool (use_speaker_boost self))
  /\ size (voice_settings self) = 4.
Proof. repeat split; reflexivity. Qed.

(** Once past its first step, an iteration touches neither the adapter nor
    the record of vendor calls, and it leaves the generator finished. *)
Lemma tts_iterate_resumed (fuel : nat) :
  forall (g g1 : generator) (s s1 : t * world) (chunks : list pyval) (last : res unit),
    (forall text voice, g <> GenStart text voice) ->
    iterate fuel g s = Some (chunks, last, g1, s1) ->
    fst s1 = fst s /\ trace (snd s1) = trace (snd s) /\ g1 = GenDone.
Proof.
  induction fuel as [|fuel IH]; intros g g1 s s1 chunks last Hg Hrun; [discriminate|].
  cbn [iterate] in Hrun.
  destruct (next g s) as [[r g2] s2] eqn:Hn.
  assert (Hstep : fst s2 = fst s /\ trace (snd s2) = trace (snd s)
                  /\ (forall text voice, g2 <> GenStart text voice)
                  /\ ((forall chunk, r <> Ok (Some chunk)) -> g2 = GenDone)).
  { destruct g as [text voice|audio_stream|].
    - exfalso. exact (Hg text voice eq_refl).
    - destruct (tts_loop_effect _ _ _ _ _ Hn) as [Hself Htrace].
      destruct (tts_loop_quiet _ _ _ _ _ Hn) as (_ & Hg2 & Hdone). auto.
    - inversion Hn; subst. repeat split; discriminate || reflexivity. }
  destruct Hstep as (Hself & Htrace & Hg2 & Hdone).
  destruct r as [[chunk|]|e].
  - destruct (iterate fuel g2 s2) as [[[[chunks2 last2] g3] s3]|] eqn:Hrest; [|discriminate].
    inversion Hrun; subst.
    destruct (IH _ _ _ _ _ _ Hg2 Hrest) as (Hself3 & Htrace3 & Hdone3).
    repeat split; congruence.
  - inversion Hrun; subst. repeat split; try assumption. apply Hdone. discriminate.
  - inversion Hrun; subst. repeat split; try assumption. apply Hdone. discriminate.
Qed.

(** X12.  An iteration of [synthesize] that gets its client and runs to its
    end has made exactly one streaming request, whatever the number of
    chunks and whether the stream closed or failed: the record of vendor
    calls grew by that one request, the adapter is the one [_get_client]
    left, and the generator is finished. *)
Theorem iteration_sends_one_request (text voice : string) (self self1 self2 : t)
    (w w1 w2 : world) (c : handle) (fuel : nat) (chunks : list pyval)
    (last : res unit) (g1 : generator) :
  _get_client (self, w) = (Ok c, (self1, w1)) ->
  iterate fuel (synthesize text voice) (self, w) = Some (chunks, last, g1, (self2, w2)) ->
  self2 = self1 /\ g1 = GenDone
  /\ trace w2 = (trace w1 ++ [EvStream c (stream_kwargs self1 text voice)])%list.
Proof.
  intros Hc Hrun.
  pose proof (tts_next_start text voice _ _ _ _ _ Hc) as Hn. cbv zeta in Hn.
  destruct (text_to_speech_stream _ _ _) as [[audio_stream|e] v].
  - rewrite (tts_iterate_next fuel _ _ _ _ Hn) in Hrun.
    apply tts_iterate_resumed in Hrun as (Hself & Htrace & Hdone); [|discriminate].
    cbn [fst snd trace] in Hself, Htrace. auto.
  - destruct fuel as [|fuel]; [discriminate|]. cbn [iterate] in Hrun.
    rewrite Hn in Hrun. unfold stopped in Hrun.
    destruct (logged_and_raised_effect (A := option pyval)
                "ElevenLabs TTS synthesis failed: " e
                (self1, World v (logged w1)
                          (trace w1 ++ [EvStream c (stream_kwargs self1 text voice)])))
      as (w3 & Heq & _ & Htrace & _).
    rewrite Heq in Hrun. cbn [fst snd] in Hrun, Htrace. inversion Hrun; subst. auto.
Qed.

(** X13.  The settings reach the streaming request.  With a truthy API key
    and the three shaping settings accepted by [float], the adapter that
    [create_model] returns sends, on the first step of any [synthesize] that
    gets its client, one request with exactly five keyword arguments: the
    text and the voice of the call, the model id of the settings (default
    [eleven_flash_v2_5]), the output format [pcm_24000], and voice settings
    holding the three coerced numbers and the speaker-boost flag. *)
Theorem tts_request_from_settings (settings : gmap string pyval) (w : world)
    (k : pyval) (st sb sy : float) :
  settings !! "elevenlabs_api_key" = Some k -> truthy k = true ->
  py_float (dict_get settings "elevenlabs_stability" (PyFloat 0.5)) = Ok st ->
  py_float (dict_get settings "elevenlabs_similarity_boost" (PyFloat 0.75)) = Ok sb ->
  py_float (dict_get settings "elevenlabs_style" (PyFloat 0)) = Ok sy ->
  exists m : t,
    create_model "elevenlabs-tts" settings w = (Ok (TTS m), w)
    /\ forall (text voice : string) (self self1 : t) (w0 w1 : world) (c : handle),
         self = m \/ (exists c0, self = with_client m c0) ->
         _get_client (self, w0) = (Ok c, (self1, w1)) ->
         exists (kwargs : gmap string pyarg) (vs : gmap string pyval) r g s2,
           next (synthesize text voice) (self, w0) = (r, g, s2)
           /\ trace (snd s2) = (trace w1 ++ [EvStream c kwargs])%list
           /\ size kwargs = 5
           /\ kwargs !! "text" = Some (Val (PyStr text))
           /\ kwargs !! "voice_id" = Some (Val (PyStr voice))
           /\ kwargs !! "model_id"
              = Some (Val (dict_get settings "elevenlabs_model_id"
                             (PyStr "eleven_flash_v2_5")))
           /\ kwargs !! "output_format" = Some (Val (PyStr "pcm_24000"))
           /\ kwargs !! "voice_settings" = Some (Dict vs)
           /\ size vs = 4
           /\ vs !! "stability" = Some (PyFloat st)
           /\ vs !! "similarity_boost" = Some (PyFloat sb)
           /\ vs !! "style" = Some (PyFloat sy)
           /\ vs !! "use_speaker_boost" = Some (PyBool true).
Proof.
  intros Hk Htruthy Hst Hsb Hsy. eexists. split.
  { rewrite create_model_tts. cbv zeta. rewrite Hst, Hsb, Hsy.
    unfold dict_get at 1 2. rewrite Hk, Htruthy. reflexivity. }
  intros text voice self self1 w0 w1 c Hself Hc.
  destruct (tts_get_client_ok _ _ _ _ _ Hc) as (_ & _ & Hmodel & Hst1 & Hsb1 & Hsy1 & Hboost).
  assert (Hfields : model_id self1
                    = dict_get settings "elevenlabs_model_id" (PyStr "eleven_flash_v2_5")
                    /\ stability self1 = st /\ similarity_boost self1 = sb
                    /\ style self1 = sy /\ use_speaker_boost self1 = true).
  { rewrite Hmodel, Hst1, Hsb1, Hsy1, Hboost.
    destruct Hself as [-> | [c0 ->]]; repeat split; reflexivity. }
  destruct Hfields as (Hm & Hs1 & Hs2 & Hs3 & Hs4).
  pose proof (stream_kwargs_lookup self1 text voice) as (Ht & Hv & Hmid & Hof & Hvs & Hsize).
  pose proof (voice_settings_lookup self1) as (Hv1 & Hv2 & Hv3 & Hv4 & Hvsize).
  rewrite Hm in Hmid. rewrite Hs1 in Hv1. rewrite Hs2 in Hv2. rewrite Hs3 in Hv3.
  rewrite Hs4 in Hv4.
  exists (stream_kwargs self1 text voice), (voice_settings self1).
  destruct (next (synthesize text voice) (self, w0)) as [[r g] [self2 w2]] eqn:Hn.
  exists r, g, (self2, w2). split; [reflexivity|]. split.
  { pose proof (tts_next_start text voice _ _ _ _ _ Hc) as Hn1.
    cbv zeta in Hn1. rewrite Hn in Hn1.
    destruct (text_to_speech_stream _ _ _) as [[audio_stream|e] v].
    - symmetry in Hn1. apply tts_loop_effect in Hn1 as [_ Htrace]. exact Htrace.
    - unfold stopped in Hn1.
      destruct (logged_and_raised_effect (A := option pyval)
                  "ElevenLabs TTS synthesis failed: " e
                  (self1, World v (logged w1)
                            (trace w1 ++ [EvStream c (stream_kwargs self1 text voice)])))
        as (w4 & Heq & _ & Htrace & _).
      rewrite Heq in Hn1. cbn [fst snd] in Hn1, Htrace. inversion Hn1; subst.
      exact Htrace. }
  repeat split; assumption.
Qed.

(** X14.  A chunk is delivered before the rest of the stream is looked at:
    [next] passes over the items that are not audio, yields the first one
    that is, and keeps what follows for later, so that a failure further down
    the stream neither delays nor retracts the chunk, and nothing is logged
    for it yet. *)
Theorem next_delivers_first_chunk (skipped : list pyval) (chunk : pyval)
    (rest : vstream) (s : t * world) :
  Forall (fun item => is_audio item = false) skipped ->
  is_audio chunk = true ->
  next (GenLoop (stream_of skipped (SItem chunk rest))) s
  = (Ok (Some chunk), GenLoop rest, s).
Proof.
  intros Hskipped Hchunk. induction Hskipped as [|item skipped Hitem _ IH].
  - cbn [stream_of]. rewrite tts_next_item, Hchunk. reflexivity.
  - cbn [stream_of]. rewrite tts_next_item, Hitem. exact IH.
Qed.

End Streaming.

(** ** When [transcribe] returns the empty string *)

Local Open Scope list_scope.

Lemma ws2_not_ws1 (a b : ascii) : ws2 a b = true -> ws1 a = false.
Proof.
  unfold ws2, ws1. intros Hab. apply andb_true_iff in Hab as [Ha _].
  apply N.eqb_eq in Ha. rewrite Ha. reflexivity.
Qed.

Lemma ws3_not_ws1_ws2 (a b c : ascii) :
  ws3 a b c = true -> ws1 a = false /\ ws2 a b = false.
Proof.
  unfold ws3, ws2, ws1. intros Habc.
  assert (Ha : code a = 225%N \/ code a = 226%N \/ code a = 227%N).
  { repeat (apply orb_true_iff in Habc as [Habc | Habc]);
      repeat (apply andb_true_iff in Habc as [Habc ?]);
      apply N.eqb_eq in Habc; auto. }
  destruct Ha as [-> | [-> | ->]]; split; reflexivity.
Qed.

(** A run of whitespace code points is stripped whole. *)
Lemma lstrip_chars_spaces (l : list ascii) : spaces l -> lstrip_chars l = [].
Proof.
  induction 1 as [|a l Ha _ IH|a b l Hab _ IH|a b c l Habc _ IH].
  - reflexivity.
  - cbn [lstrip_chars]. rewrite Ha. exact IH.
  - cbn [lstrip_chars]. rewrite (ws2_not_ws1 _ _ Hab), Hab. exact IH.
  - cbn [lstrip_chars]. destruct (ws3_not_ws1_ws2 _ _ _ Habc) as [-> ->].
    rewrite Habc. exact IH.
Qed.

Lemma strip_chars_nil_iff (l : list ascii) : strip_chars l = [] <-> spaces l.
Proof.
  split.
  - intros Hstrip. destruct (strip_chars_spec l) as (p & r & Hl & Hp & Hr & _).
    rewrite Hstrip in Hl. rewrite Hl. apply spaces_app; assumption.
  - intros Hl. unfold strip_chars. rewrite (lstrip_chars_spaces _ Hl). reflexivity.
Qed.

Lemma strip_empty_iff (s : string) :
  strip s = ""%string <-> spaces (list_ascii_of_string s).
Proof.
  unfold strip. rewrite <- strip_chars_nil_iff.
  destruct (strip_chars (list_ascii_of_string s)); simpl; split; congruence.
Qed.

Local Open Scope string_scope.

Section EmptyTranscript.
Context `{VendorSDK}.

Import ElevenLabsSTTModel.

(** X15.  When the client is at hand, the audio renders and the endpoint
    answers, [transcribe] returns the empty string exactly when the answer
    has no text or a text made of whitespace code points only (the empty
    text included); any other text comes back non-empty. *)
Theorem transcribe_empty_iff_blank (audio : AudioData) (self self1 : t) (w w1 : world)
    (c : handle) (wav_data : bytes) (result : stt_response) (v : vstate) :
  _get_client (self, w) = (Ok c, (self1, w1)) ->
  get_wav_data audio 16000 2 = Ok wav_data ->
  speech_to_text_convert c (transcribe_kwargs self1 (PyBytesIO "audio.wav" wav_data))
    (vendor w1) = (Ok result, v) ->
  exists out : string,
    fst (transcribe audio (self, w)) = Ok out
    /\ (out = "" <->
        text result = None
        \/ exists s, text result = Some s /\ spaces (list_ascii_of_string s)).
Proof.
  intros Hc Hwav Hconvert.
  rewrite (stt_transcribe_run _ _ _ _ _ _ Hc), Hwav. cbv zeta. rewrite Hconvert.
  eexists. split; [reflexivity|]. unfold transcribed_text.
  destruct (text result) as [s|].
  - destruct (String.eqb_spec s "") as [-> | Hs].
    + cbn. split; [|reflexivity]. intros _. right. exists "". split; [reflexivity|constructor].
    + assert (Ht : truthy (PyStr s) = true).
      { cbn [truthy]. apply String.eqb_neq in Hs. rewrite Hs. reflexivity. }
      rewrite Ht, strip_empty_iff. split.
      * intros Hblank. right. exists s. split; [reflexivity|exact Hblank].
      * intros [Hnone | (s0 & Hsome & Hblank)]; [discriminate|].
        inversion Hsome; subst. exact Hblank.
  - split; [intros _; left; reflexivity|reflexivity].
Qed.

End EmptyTranscript.

(** ** One remote call per transcription *)

Section OneCall.
Context `{VendorSDK}.

Import ElevenLabsSTTModel.

(** X16.  A [transcribe] call makes at most one remote call, whatever goes
    wrong, and exactly one when it returns a text: nothing is retried. *)
Theorem transcribe_calls_once (audio : AudioData) (self self1 : t) (w w1 : world)
    (r : res string) :
  transcribe audio (self, w) = (r, (self1, w1)) ->
  length (clients_used (trace w1)) <= S (length (clients_used (trace w)))
  /\ (forall out, r = Ok out ->
      length (clients_used (trace w1)) = S (length (clients_used (trace w)))).
Proof.
  intros Hrun.
  assert (Hgc : exists r0 self0 w0,
             _get_client (self, w) = (r0, (self0, w0))
             /\ clients_used (trace w0) = clients_used (trace w)).
  { destruct (stt_get_client_cases self w)
      as [(c & _ & Hc) | [(_ & c & w0 & Hc & _ & tr & Htr & _ & Hused)
                          | (_ & e & w0 & Hc & tr & Htr & _ & Hused)]];
      rewrite Hc; eexists _, _, _; (split; [reflexivity|]);
      rewrite ?Htr, ?clients_used_app, ?Hused, ?app_nil_r; reflexivity. }
  destruct Hgc as ([c|e] & self0 & w0 & Hc & Hused).
  - rewrite (stt_transcribe_run _ _ _ _ _ _ Hc) in Hrun. rewrite <- Hused.
    destruct (get_wav_data audio 16000 2) as [wav_data|e].
    + cbv zeta in Hrun.
      destruct (speech_to_text_convert _ _ _) as [[result|e] v].
      * inversion Hrun; subst. cbn [trace].
        rewrite clients_used_app, length_app. cbn. split; [lia|intros; lia].
      * match type of Hrun with
        | logged_and_raised ?ctx ?e0 ?s0 = _ =>
            destruct (logged_and_raised_effect (A := string) ctx e0 s0)
              as (w2 & Heq & _ & Htr & _)
        end.
        rewrite Heq in Hrun. inversion Hrun; subst. rewrite Htr. cbn [snd trace].
        rewrite clients_used_app, length_app. cbn. split; [lia|discriminate].
    + destruct (logged_and_raised_effect (A := string)
                  "ElevenLabs STT transcription failed: " e (self0, w0))
        as (w2 & Heq & _ & Htr & _).
      rewrite Heq in Hrun. inversion Hrun; subst. rewrite Htr. cbn [snd].
      split; [lia|discriminate].
  - rewrite (stt_transcribe_no_client _ _ _ _ _ Hc) in Hrun. inversion Hrun; subst.
    rewrite Hused. split; [lia|discriminate].
Qed.

End OneCall.

(** ** The further properties at concrete inputs *)

Lemma create_model_error_classes_witness :
  (exn_class_of
     (Exn TypeError "float() argument must be a string or a real number, not 'NoneType'")
   = ValueError
   \/ exn_class_of
        (Exn TypeError "float() argument must be a string or a real number, not 'NoneType'")
      = TypeError
   \/ exn_class_of
        (Exn TypeError "float() argument must be a string or a real number, not 'NoneType'")
      = OverflowError)
  /\ @ElevenLabsPlugin.create_model scripted_runtime demo_vendor "elevenlabs-tts"
       none_settings (fresh_world demo_vendor 0)
     = (Raise (Exn TypeError
                 "float() argument must be a string or a real number, not 'NoneType'"),
        fresh_world demo_vendor 0).
Proof.
  split; [|reflexivity].
  apply (@create_model_error_classes scripted_runtime demo_vendor "elevenlabs-tts"
           none_settings (fresh_world demo_vendor 0) (fresh_world demo_vendor 0)
           (Exn TypeError
              "float() argument must be a string or a real number, not 'NoneType'")
           eq_refl).
Defined.

Lemma create_model_declared_kind_witness :
  exists p : ElevenLabsPlugin.ModelProviderDefinition,
    In p ElevenLabsPlugin.model_providers
    /\ ElevenLabsPlugin.id p = "elevenlabs-tts"
    /\ ElevenLabsPlugin.kind p = "tts".
Proof.
  apply (@create_model_declared_kind scripted_runtime demo_vendor "elevenlabs-tts"
           voice_a_settings (fresh_world demo_vendor 0) (fresh_world demo_vendor 0)
           (ElevenLabsPlugin.TTS demo_tts) eq_refl).
Defined.

Lemma create_model_reads_only_witness :
  @ElevenLabsPlugin.create_model scripted_runtime demo_vendor "elevenlabs-stt"
    voice_a_settings (fresh_world demo_vendor 0)
  = @ElevenLabsPlugin.create_model scripted_runtime demo_vendor "elevenlabs-stt"
      voice_b_settings (fresh_world demo_vendor 0).
Proof.
  apply (@create_model_reads_only scripted_runtime demo_vendor).
  simpl. intros k [<- | [<- | [<- | []]]]; reflexivity.
Defined.

Lemma create_model_schema_defaults_witness :
  let p := {| ElevenLabsPlugin.kind := "stt";
              ElevenLabsPlugin.id := "elevenlabs-stt";
              ElevenLabsPlugin.label := "ElevenLabs STT";
              ElevenLabsPlugin.settings_config :=
                [ ElevenLabsPlugin.credentials_grid;
                  {| ElevenLabsPlugin.grid_key := "settings";
                     ElevenLabsPlugin.grid_label := "Settings";
                     ElevenLabsPlugin.fields :=
                       [ ElevenLabsPlugin.TextSetting "elevenlabs_stt_model_id"
                           "Model ID" "scribe_v1" "scribe_v1" false;
                         ElevenLabsPlugin.TextSetting "elevenlabs_stt_language"
                           "Language Code (optional)" "en" "" false ] |} ] |} in
  @ElevenLabsPlugin.create_model scripted_runtime demo_vendor "elevenlabs-stt"
    (demo_settings ∪ schema_defaults p) (fresh_world demo_vendor 0)
  = @ElevenLabsPlugin.create_model scripted_runtime demo_vendor "elevenlabs-stt"
      demo_settings (fresh_world demo_vendor 0).
Proof.
  intros p.
  apply (@create_model_schema_defaults scripted_runtime demo_vendor p demo_settings
           (fresh_world demo_vendor 0)).
  left. reflexivity.
Defined.

Lemma create_model_constructor_defaults_witness :
  @ElevenLabsPlugin.create_model scripted_runtime demo_vendor "elevenlabs-stt"
    voice_a_settings (fresh_world demo_vendor 0)
  = (Ok (ElevenLabsPlugin.STT (ElevenLabsSTTModel.__init__ (PyStr "sk") None None)),
     fresh_world demo_vendor 0)
  /\ @ElevenLabsPlugin.create_model scripted_runtime demo_vendor "elevenlabs-tts"
       voice_a_settings (fresh_world demo_vendor 0)
     = (Ok (ElevenLabsPlugin.TTS
              (ElevenLabsTTSModel.__init__ (PyStr "sk") None None None None None)),
        fresh_world demo_vendor 0).
Proof.
  destruct (@create_model_constructor_defaults scripted_runtime demo_vendor
              voice_a_settings (fresh_world demo_vendor 0) (PyStr "sk") eq_refl eq_refl)
    as [Hstt Htts].
  split; [apply Hstt|apply Htts]; reflexivity.
Defined.

Lemma import_error_replaced_witness :
  @ElevenLabsSTTModel.transcribe missing_vendor silence
    (demo_stt, fresh_world missing_vendor 0)
  = (Raise not_installed, (demo_stt, World (1 : @vstate missing_vendor) [] []))
  /\ @ElevenLabsTTSModel.next missing_vendor
       (ElevenLabsTTSModel.synthesize "hello" "voice-c")
       (demo_tts, fresh_world missing_vendor 0)
     = (Raise not_installed, ElevenLabsTTSModel.GenDone,
        (demo_tts, World (1 : @vstate missing_vendor) [] [])).
Proof.
  destruct (@import_error_replaced missing_vendor demo_stt demo_tts
              (fresh_world missing_vendor 0) (World (1 : @vstate missing_vendor) [] [])
              (Exn ModuleNotFoundError "No module named 'elevenlabs'")
              silence "hello" "voice-c" eq_refl) as [Hstt Htts].
  split; [apply Hstt|apply Htts]; reflexivity.
Defined.

Lemma client_failure_logged_once_witness :
  @ElevenLabsSTTModel.transcribe flaky_vendor silence
    (demo_stt, fresh_world flaky_vendor 0)
  = (Raise connection_reset,
     (demo_stt,
      World (2 : @vstate flaky_vendor)
        [("error", "Failed to initialize ElevenLabs client: connection reset")]
        [EvElevenLabs (PyStr "sk") (Raise connection_reset)]))
  /\ @ElevenLabsTTSModel.next flaky_vendor
       (ElevenLabsTTSModel.synthesize "hello" "voice-c")
       (demo_tts, fresh_world flaky_vendor 0)
     = (Raise connection_reset, ElevenLabsTTSModel.GenDone,
        (demo_tts,
         World (2 : @vstate flaky_vendor)
           [("error", "Failed to initialize ElevenLabs client: connection reset")]
           [EvElevenLabs (PyStr "sk") (Raise connection_reset)])).
Proof.
  destruct (@client_failure_logged_once flaky_vendor demo_stt demo_tts
              (fresh_world flaky_vendor 0)
              (World (2 : @vstate flaky_vendor) []
                 [EvElevenLabs (PyStr "sk") (Raise connection_reset)])
              connection_reset silence "hello" "voice-c" eq_refl eq_refl)
    as [Hstt Htts].
  split; [apply Hstt|apply Htts]; reflexivity.
Defined.

Lemma failed_construction_retried_witness :
  exists e1 w2,
    @ElevenLabsSTTModel.transcribe flaky_vendor silence
      (demo_stt, fresh_world flaky_vendor 0) = (Raise e1, (demo_stt, w2))
    /\ @ElevenLabsSTTModel._get_client flaky_vendor (demo_stt, w2)
       = (Ok 7,
          (ElevenLabsSTTModel.with_client demo_stt 7,
           World (4 : @vstate flaky_vendor) (logged w2)
             (trace w2 ++ [EvElevenLabs (PyStr "sk") (Ok 7)]))).
Proof.
  destruct (@failed_construction_retried flaky_vendor demo_stt demo_tts
              (fresh_world flaky_vendor 0)
              (World (2 : @vstate flaky_vendor) []
                 [EvElevenLabs (PyStr "sk") (Raise connection_reset)])
              connection_reset silence "hello" "voice-c") as [Hstt _].
  destruct (Hstt eq_refl eq_refl) as (e1 & w2 & Hrun & Hvendor & Htrace & Hretry).
  exists e1, w2. split; [exact Hrun|]. apply Hretry.
  destruct w2 as [v2 lg2 tr2]. cbn [vendor trace logged] in *. subst v2.
  reflexivity.
Defined.

Lemma iteration_sends_one_request_witness :
  @ElevenLabsTTSModel.iterate demo_vendor 4
    (ElevenLabsTTSModel.synthesize "hello" "voice-c")
    (demo_tts, fresh_world demo_vendor 0)
  = Some ([abc; def], Ok tt, ElevenLabsTTSModel.GenDone,
          (ElevenLabsTTSModel.with_client demo_tts 7,
           World (3 : @vstate demo_vendor) []
             [EvElevenLabs (PyStr "sk") (Ok 7);
              EvStream 7
                (ElevenLabsTTSModel.stream_kwargs
                   (ElevenLabsTTSModel.with_client demo_tts 7) "hello" "voice-c")]))
  /\ [EvElevenLabs (PyStr "sk") (Ok 7);
      EvStream 7
        (ElevenLabsTTSModel.stream_kwargs (ElevenLabsTTSModel.with_client demo_tts 7)
           "hello" "voice-c")]
     = ([EvElevenLabs (PyStr "sk") (Ok 7)]
        ++ [EvStream 7
              (ElevenLabsTTSModel.stream_kwargs
                 (ElevenLabsTTSModel.with_client demo_tts 7) "hello" "voice-c")])%list.
Proof.
  split; [reflexivity|].
  apply (@iteration_sends_one_request demo_vendor "hello" "voice-c" demo_tts
           (ElevenLabsTTSModel.with_client demo_tts 7)
           (ElevenLabsTTSModel.with_client demo_tts 7)
           (fresh_world demo_vendor 0)
           (World (2 : @vstate demo_vendor) [] [EvElevenLabs (PyStr "sk") (Ok 7)])
           (World (3 : @vstate demo_vendor) []
              [EvElevenLabs (PyStr "sk") (Ok 7);
               EvStream 7
                 (ElevenLabsTTSModel.stream_kwargs
                    (ElevenLabsTTSModel.with_client demo_tts 7) "hello" "voice-c")])
           7 4 [abc; def] (Ok tt) ElevenLabsTTSModel.GenDone eq_refl eq_refl).
Defined.

Lemma tts_request_from_settings_witness :
  exists m : ElevenLabsTTSModel.t,
    @ElevenLabsPlugin.create_model scripted_runtime demo_vendor "elevenlabs-tts"
      demo_settings (fresh_world demo_vendor 0)
    = (Ok (ElevenLabsPlugin.TTS m), fresh_world demo_vendor 0).
Proof.
  destruct (@tts_request_from_settings scripted_runtime demo_vendor demo_settings
              (fresh_world demo_vendor 0) (PyStr "sk") 0.25 0.75 0
              eq_refl eq_refl eq_refl eq_refl eq_refl) as (m & Hcreate & _).
  exists m. exact Hcreate.
Defined.

Lemma next_delivers_first_chunk_witness :
  @ElevenLabsTTSModel.next failing_vendor
    (ElevenLabsTTSModel.GenLoop
       (stream_of [PyNone; PyStr "x"; PyBytes []] (SItem abc (SRaise connection_reset))))
    (demo_tts, fresh_world failing_vendor 0)
  = (Ok (Some abc), ElevenLabsTTSModel.GenLoop (SRaise connection_reset),
     (demo_tts, fresh_world failing_vendor 0)).
Proof.
  apply (@next_delivers_first_chunk failing_vendor [PyNone; PyStr "x"; PyBytes []] abc
           (SRaise connection_reset) (demo_tts, fresh_world failing_vendor 0)).
  - repeat constructor.
  - reflexivity.
Defined.

Lemma transcribe_empty_iff_blank_witness :
  exists out : string,
    fst (@ElevenLabsSTTModel.transcribe blank_vendor silence
           (demo_stt, fresh_world blank_vendor 0)) = Ok out
    /\ out = "".
Proof.
  destruct (@transcribe_empty_iff_blank blank_vendor silence demo_stt
              (ElevenLabsSTTModel.with_client demo_stt 7)
              (fresh_world blank_vendor 0)
              (World (2 : @vstate blank_vendor) [] [EvElevenLabs (PyStr "sk") (Ok 7)])
              7 [] {| text := Some "   " |} (3 : @vstate blank_vendor)
              eq_refl eq_refl eq_refl) as (out & Hrun & Hiff).
  exists out. split; [exact Hrun|]. apply Hiff. right. exists "   ".
  split; [reflexivity|]. repeat (apply spaces_1; [reflexivity|]). constructor.
Defined.

Lemma transcribe_calls_once_witness :
  length (clients_used
            (trace (snd (snd (@ElevenLabsSTTModel.transcribe failing_vendor silence
                                (demo_stt, fresh_world failing_vendor 0))))))
  <= 1.
Proof.
  destruct (@transcribe_calls_once failing_vendor silence demo_stt
              (ElevenLabsSTTModel.with_client demo_stt 7)
              (fresh_world failing_vendor 0)
              (World (3 : @vstate failing_vendor)
                 [("error", "ElevenLabs STT transcription failed: quota exceeded")]
                 [EvElevenLabs (PyStr "sk") (Ok 7);
                  EvConvert 7
                    (ElevenLabsSTTModel.transcribe_kwargs
                       (ElevenLabsSTTModel.with_client demo_stt 7)
                       (PyBytesIO "audio.wav" []))])
              (Raise quota_exceeded) eq_refl) as [Hmost _].
  exact Hmost.
Defined.
